(** * Pose Changer AI: the request orchestration of [App.tsx]

    A shallow embedding of the orchestration code of the application
    (the richer, image-or-text variant of [App.tsx], together with
    [components/ImageUploader.tsx]) and the properties of it that the
    design document states.

    JavaScript strings are modelled by [string]: sequences of 8-bit code
    units (the Latin-1 range of UTF-16 code units).  React state is a
    record, every [setX] an absolute field update, and the asynchronous
    handler is cut at its single [await] into a synchronous part and a
    resumption. *)

From Stdlib Require Import Bool List String Ascii Arith Lia.
From Stdlib.Strings Require Import Byte.
Import ListNotations.
Local Open Scope string_scope.

(** ** JavaScript string primitives used by the code *)

Module Js.

(** [s.split(sep)] for a one-character separator: never the empty list,
    ["".split(",")] is [[""]]. *)
Fixpoint split (sep : ascii) (s : string) : list string :=
  match s with
  | EmptyString => [EmptyString]
  | String c r =>
      if Ascii.eqb c sep then EmptyString :: split sep r
      else match split sep r with
           | h :: t => String c h :: t
           | [] => [String c EmptyString]
           end
  end.

(** [xs[i]]: [None] stands for [undefined]. *)
Definition index {A} (xs : list A) (i : nat) : option A := nth_error xs i.

(** White space removed by [String.prototype.trim], within the 8-bit
    range: TAB, LF, VT, FF, CR, SPACE and NBSP. *)
Definition is_white_space (c : ascii) : bool :=
  let n := nat_of_ascii c in
  (Nat.eqb n 9 || Nat.eqb n 10 || Nat.eqb n 11 || Nat.eqb n 12
   || Nat.eqb n 13 || Nat.eqb n 32 || Nat.eqb n 160)%bool.

Fixpoint trimStart (s : string) : string :=
  match s with
  | EmptyString => EmptyString
  | String c r => if is_white_space c then trimStart r else s
  end.

Fixpoint trimEnd (s : string) : string :=
  match s with
  | EmptyString => EmptyString
  | String c r =>
      match trimEnd r with
      | EmptyString => if is_white_space c then EmptyString
                       else String c EmptyString
      | r' => String c r'
      end
  end.

Definition trim (s : string) : string := trimEnd (trimStart s).

(** Truthiness of a string: the empty string is falsy. *)
Definition truthy (s : string) : bool :=
  match s with EmptyString => false | String _ _ => true end.

(** Truthiness of [string | undefined]. *)
Definition truthy_opt (o : option string) : bool :=
  match o with None => false | Some s => truthy s end.

(** [s.startsWith(p)]. *)
Definition startsWith (s p : string) : bool := String.prefix p s.

(** A value of type [string | undefined | null], as the arguments of
    [changePose] are. *)
Inductive value : Type :=
| Null
| Undefined
| Str (s : string).

Definition of_index (o : option string) : value :=
  match o with None => Undefined | Some s => Str s end.

(** What a [catch (e)] clause can receive: an [Error] instance with its
    [message], or any other thrown value (here its printed form). *)
Inductive thrown : Type :=
| Error (message : string)
| NonError (printed : string).

(** [c] does not occur in [s]. *)
Fixpoint lacks (c : ascii) (s : string) : bool :=
  match s with
  | EmptyString => true
  | String d r => negb (Ascii.eqb d c) && lacks c r
  end.

(** [m] occurs in [d] as a contiguous run of characters. *)
Definition occurs_in (m d : string) : Prop :=
  exists pre post, d = pre ++ m ++ post.

End Js.

(** ** Base64 (RFC 4648), as [FileReader.readAsDataURL] produces it *)

Module Base64.

Definition alphabet : string :=
  "ABCDEFGHIJKLMNOPQRSTUVWXYZabcdefghijklmnopqrstuvwxyz0123456789+/".

(** Six bits, most significant first. *)
Definition sextet : Type := (bool * bool * bool * bool * bool * bool)%type.

Definition bit (b : bool) : nat := if b then 1 else 0.

Definition sextet_index (x : sextet) : nat :=
  let '(b5, b4, b3, b2, b1, b0) := x in
  32 * bit b5 + 16 * bit b4 + 8 * bit b3 + 4 * bit b2 + 2 * bit b1 + bit b0.

Definition pad : ascii := "="%char.

Definition char_of (x : sextet) : ascii :=
  match String.get (sextet_index x) alphabet with
  | Some c => c
  | None => pad
  end.

Definition all_sextets : list sextet :=
  let bs := [false; true] in
  flat_map (fun b5 => flat_map (fun b4 => flat_map (fun b3 =>
  flat_map (fun b2 => flat_map (fun b1 => map (fun b0 =>
    (b5, b4, b3, b2, b1, b0)) bs) bs) bs) bs) bs) bs.

Definition value_of (c : ascii) : option sextet :=
  find (fun x => Ascii.eqb (char_of x) c) all_sextets.

(** Three bytes are 24 bits, cut into four sextets.  [Byte.to_bits] is
    least significant bit first. *)
Definition group3 (a b c : byte) : sextet * sextet * sextet * sextet :=
  let '(a0, (a1, (a2, (a3, (a4, (a5, (a6, a7))))))) := Byte.to_bits a in
  let '(b0, (b1, (b2, (b3, (b4, (b5, (b6, b7))))))) := Byte.to_bits b in
  let '(c0, (c1, (c2, (c3, (c4, (c5, (c6, c7))))))) := Byte.to_bits c in
  ((a7, a6, a5, a4, a3, a2), (a1, a0, b7, b6, b5, b4),
   (b3, b2, b1, b0, c7, c6), (c5, c4, c3, c2, c1, c0)).

Definition ungroup3 (w x y z : sextet) : byte * byte * byte :=
  let '(a7, a6, a5, a4, a3, a2) := w in
  let '(a1, a0, b7, b6, b5, b4) := x in
  let '(b3, b2, b1, b0, c7, c6) := y in
  let '(c5, c4, c3, c2, c1, c0) := z in
  (Byte.of_bits (a0, (a1, (a2, (a3, (a4, (a5, (a6, a7))))))),
   Byte.of_bits (b0, (b1, (b2, (b3, (b4, (b5, (b6, b7))))))),
   Byte.of_bits (c0, (c1, (c2, (c3, (c4, (c5, (c6, c7)))))))).

Definition zero : byte := Byte.x00.

Fixpoint encode (bs : list byte) : string :=
  match bs with
  | [] => EmptyString
  | [a] =>
      let '(w, x, _, _) := group3 a zero zero in
      String (char_of w) (String (char_of x) (String pad (String pad EmptyString)))
  | [a; b] =>
      let '(w, x, y, _) := group3 a b zero in
      String (char_of w) (String (char_of x) (String (char_of y)
        (String pad EmptyString)))
  | a :: b :: c :: rest =>
      let '(w, x, y, z) := group3 a b c in
      String (char_of w) (String (char_of x) (String (char_of y)
        (String (char_of z) (encode rest))))
  end.

(** The inverse reading, used to state that a payload determines its
    bytes. *)
Fixpoint decode (s : string) : option (list byte) :=
  match s with
  | EmptyString => Some []
  | String c1 (String c2 (String c3 (String c4 rest))) =>
      match value_of c1, value_of c2, value_of c3, value_of c4 with
      | Some w, Some x, Some y, Some z =>
          match decode rest with
          | Some bs => let '(a, b, c) := ungroup3 w x y z in Some (a :: b :: c :: bs)
          | None => None
          end
      | Some w, Some x, Some y, None =>
          match rest with
          | EmptyString =>
              if Ascii.eqb c4 pad
              then let '(a, b, _) := ungroup3 w x y y in Some [a; b]
              else None
          | _ => None
          end
      | Some w, Some x, None, None =>
          match rest with
          | EmptyString =>
              if (Ascii.eqb c3 pad && Ascii.eqb c4 pad)%bool
              then let '(a, _, _) := ungroup3 w x x x in Some [a]
              else None
          | _ => None
          end
      | _, _, _, _ => None
      end
  | _ => None
  end.

End Base64.

(** ** [components/ImageUploader.tsx] *)

Module Uploader.

(** A browser [File] (or [Blob]): its declared media type and content. *)
Record File : Type := { type : string; bytes : list byte }.

(** [types.ts] is not among the sources; its [ImageFile] is used with
    exactly these two string fields. *)
Record ImageFile : Type := { dataUrl : string; mimeType : string }.

(** [FileReader.readAsDataURL] (File API): the content as a base64
    [data:] URL carrying the declared type, or
    [application/octet-stream] when none is declared. *)
Definition readAsDataURL (f : File) : string :=
  "data:"
  ++ match type f with
     | EmptyString => "application/octet-stream"
     | String _ _ => type f
     end
  ++ ";base64," ++ Base64.encode (bytes f).

(** [handleFileChange]: the asset handed to [onImageUpload] when the
    reader ends, or [None] when the callback is never invoked. *)
Definition handleFileChange (file : option File) : option ImageFile :=
  match file with
  | Some f =>
      if Js.startsWith (type f) "image/"
      then Some {| dataUrl := readAsDataURL f; mimeType := type f |}
      else None
  | None => None
  end.

End Uploader.

(** ** [App.tsx] *)

Module App.
Import Uploader.

(** The ten [useState] cells of the component. *)
Record State : Type := {
  originalImage : option ImageFile;
  backgroundImage : option ImageFile;
  clothingImage : option ImageFile;
  generatedImage : option string;
  prompt : string;
  clothingPrompt : string;
  backgroundPrompt : string;
  preserveBodyShape : bool;
  isLoading : bool;
  error : option string
}.

Definition initial : State := {|
  originalImage := None; backgroundImage := None; clothingImage := None;
  generatedImage := None; prompt := ""; clothingPrompt := "";
  backgroundPrompt := ""; preserveBodyShape := true; isLoading := true;
  error := None
|}.

Definition setOriginalImage (v : option ImageFile) (s : State) : State :=
  {| originalImage := v; backgroundImage := backgroundImage s;
     clothingImage := clothingImage s; generatedImage := generatedImage s;
     prompt := prompt s; clothingPrompt := clothingPrompt s;
     backgroundPrompt := backgroundPrompt s;
     preserveBodyShape := preserveBodyShape s; isLoading := isLoading s;
     error := error s |}.

Definition setBackgroundImage (v : option ImageFile) (s : State) : State :=
  {| originalImage := originalImage s; backgroundImage := v;
     clothingImage := clothingImage s; generatedImage := generatedImage s;
     prompt := prompt s; clothingPrompt := clothingPrompt s;
     backgroundPrompt := backgroundPrompt s;
     preserveBodyShape := preserveBodyShape s; isLoading := isLoading s;
     error := error s |}.

Definition setClothingImage (v : option ImageFile) (s : State) : State :=
  {| originalImage := originalImage s; backgroundImage := backgroundImage s;
     clothingImage := v; generatedImage := generatedImage s;
     prompt := prompt s; clothingPrompt := clothingPrompt s;
     backgroundPrompt := backgroundPrompt s;
     preserveBodyShape := preserveBodyShape s; isLoading := isLoading s;
     error := error s |}.

Definition setGeneratedImage (v : option string) (s : State) : State :=
  {| originalImage := originalImage s; backgroundImage := backgroundImage s;
     clothingImage := clothingImage s; generatedImage := v;
     prompt := prompt s; clothingPrompt := clothingPrompt s;
     backgroundPrompt := backgroundPrompt s;
     preserveBodyShape := preserveBodyShape s; isLoading := isLoading s;
     error := error s |}.

Definition setPrompt (v : string) (s : State) : State :=
  {| originalImage := originalImage s; backgroundImage := backgroundImage s;
     clothingImage := clothingImage s; generatedImage := generatedImage s;
     prompt := v; clothingPrompt := clothingPrompt s;
     backgroundPrompt := backgroundPrompt s;
     preserveBodyShape := preserveBodyShape s; isLoading := isLoading s;
     error := error s |}.

Definition setClothingPrompt (v : string) (s : State) : State :=
  {| originalImage := originalImage s; backgroundImage := backgroundImage s;
     clothingImage := clothingImage s; generatedImage := generatedImage s;
     prompt := prompt s; clothingPrompt := v;
     backgroundPrompt := backgroundPrompt s;
     preserveBodyShape := preserveBodyShape s; isLoading := isLoading s;
     error := error s |}.

Definition setBackgroundPrompt (v : string) (s : State) : State :=
  {| originalImage := originalImage s; backgroundImage := backgroundImage s;
     clothingImage := clothingImage s; generatedImage := generatedImage s;
     prompt := prompt s; clothingPrompt := clothingPrompt s;
     backgroundPrompt := v;
     preserveBodyShape := preserveBodyShape s; isLoading := isLoading s;
     error := error s |}.

Definition setPreserveBodyShape (v : bool) (s : State) : State :=
  {| originalImage := originalImage s; backgroundImage := backgroundImage s;
     clothingImage := clothingImage s; generatedImage := generatedImage s;
     prompt := prompt s; clothingPrompt := clothingPrompt s;
     backgroundPrompt := backgroundPrompt s;
     preserveBodyShape := v; isLoading := isLoading s;
     error := error s |}.

Definition setIsLoading (v : bool) (s : State) : State :=
  {| originalImage := originalImage s; backgroundImage := backgroundImage s;
     clothingImage := clothingImage s; generatedImage := generatedImage s;
     prompt := prompt s; clothingPrompt := clothingPrompt s;
     backgroundPrompt := backgroundPrompt s;
     preserveBodyShape := preserveBodyShape s; isLoading := v;
     error := error s |}.

Definition setError (v : option string) (s : State) : State :=
  {| originalImage := originalImage s; backgroundImage := backgroundImage s;
     clothingImage := clothingImage s; generatedImage := generatedImage s;
     prompt := prompt s; clothingPrompt := clothingPrompt s;
     backgroundPrompt := backgroundPrompt s;
     preserveBodyShape := preserveBodyShape s; isLoading := isLoading s;
     error := v |}.

(** [!x] for a nullable object. *)
Definition absent {A} (o : option A) : bool :=
  match o with None => true | Some _ => false end.

(** [handleImageUpload]. *)
Definition handleImageUpload (imageFile : ImageFile) (s : State) : State :=
  setError None (setGeneratedImage None (setOriginalImage (Some imageFile) s)).

(** The ten positional arguments of one call of [changePose], the
    external generation service ([services/geminiService], not among the
    sources). *)
Record ChangePoseArgs : Type := {
  arg_base64Data : string;
  arg_mimeType : string;
  arg_backgroundData : Js.value;
  arg_backgroundMimeType : Js.value;
  arg_clothingData : Js.value;
  arg_clothingMimeType : Js.value;
  arg_prompt : string;
  arg_backgroundPrompt : string;
  arg_clothingPrompt : string;
  arg_preserveBodyShape : bool
}.

(** How the promise returned by [changePose] settles. *)
Inductive settled : Type :=
| Resolved (newImageBase64 : string)
| Rejected (e : Js.thrown).

(** The second conjunct of the guard of [handleGeneratePose]: no text and
    no reference image at all. *)
Definition nothingToChange (s : State) : bool :=
  negb (Js.truthy (Js.trim (prompt s)))
  && negb (Js.truthy (Js.trim (clothingPrompt s)))
  && negb (Js.truthy (Js.trim (backgroundPrompt s)))
  && absent (backgroundImage s)
  && absent (clothingImage s).

Definition validationMessage : string :=
  "Please describe what you want to change (pose, clothing, or background).".

(** Which operand made the guard [!originalImage || (...)] of
    [handleGeneratePose] true, if any: [||] evaluates its second operand
    only when the first is false.  The handler does not tell the two
    apart, it sets [validationMessage] for both. *)
Inductive Rejection : Type :=
| NoSourceImage
| NoModifierSpecified.

Definition guard (s : State) : option Rejection :=
  if absent (originalImage s) then Some NoSourceImage
  else if nothingToChange s then Some NoModifierSpecified
  else None.

(** The [catch (e)] clause of [handleGeneratePose]. *)
Definition errorMessage (e : Js.thrown) : string :=
  match e with
  | Js.Error message => message
  | Js.NonError _ => "An unknown error occurred."
  end.

Definition catchClause (e : Js.thrown) (s : State) : State :=
  setError (Some ("Failed to generate new pose. " ++ errorMessage e)) s.

(** The [finally] clause. *)
Definition finallyClause (s : State) : State := setIsLoading false s.

(** The wire form of a reference image, as passed to [changePose]:
    [img ? img.dataUrl.split(',')[1] : null] and
    [img ? img.mimeType : null]. *)
Definition referenceData (img : option ImageFile) : Js.value :=
  match img with
  | Some i => Js.of_index (Js.index (Js.split ","%char (dataUrl i)) 1)
  | None => Js.Null
  end.

Definition referenceMimeType (img : option ImageFile) : Js.value :=
  match img with
  | Some i => Js.Str (mimeType i)
  | None => Js.Null
  end.

(** [handleGeneratePose] runs to its end without calling [changePose],
    or is suspended at [await changePose(...)]. *)
Inductive outcome : Type :=
| Returned (s : State)
| Awaiting (s : State) (call : ChangePoseArgs).

(** [handleGeneratePose], up to the [await]. *)
Definition handleGeneratePose (s : State) : outcome :=
  match originalImage s with
  | None => Returned (setError (Some validationMessage) s)
  | Some original =>
      if nothingToChange s
      then Returned (setError (Some validationMessage) s)
      else
        let s1 := setGeneratedImage None (setError None (setIsLoading true s)) in
        let base64Data := Js.index (Js.split ","%char (dataUrl original)) 1 in
        match base64Data with
        | Some data =>
            if Js.truthy data
            then Awaiting s1
                   {| arg_base64Data := data;
                      arg_mimeType := mimeType original;
                      arg_backgroundData := referenceData (backgroundImage s);
                      arg_backgroundMimeType := referenceMimeType (backgroundImage s);
                      arg_clothingData := referenceData (clothingImage s);
                      arg_clothingMimeType := referenceMimeType (clothingImage s);
                      arg_prompt := prompt s;
                      arg_backgroundPrompt := backgroundPrompt s;
                      arg_clothingPrompt := clothingPrompt s;
                      arg_preserveBodyShape := preserveBodyShape s |}
            else Returned (finallyClause
                   (catchClause (Js.Error "Invalid image data URL.") s1))
        | None => Returned (finallyClause
                    (catchClause (Js.Error "Invalid image data URL.") s1))
        end
  end.

(** [handleGeneratePose], from the [await] on; [s] is the state when the
    promise settles. *)
Definition resume (r : settled) (s : State) : State :=
  match r with
  | Resolved newImageBase64 =>
      finallyClause (setGeneratedImage (Some newImageBase64) s)
  | Rejected e => finallyClause (catchClause e s)
  end.

(** [isGenerationDisabled], the [disabled] attribute of the button. *)
Definition isGenerationDisabled (s : State) : bool :=
  isLoading s || absent (originalImage s) || nothingToChange s.

(** *** The application as a transition system

    What the component does over time: the start-up effect
    [loadInitialImage], the user's actions as the rendered controls
    allow them, and the settling of the calls of [changePose]. *)

(** Progress of [loadInitialImage]: awaiting [fetch] and [blob()], then
    the [FileReader] running on the blob, then nothing left. *)
Inductive LoadPhase : Type :=
| Fetching
| Reading (blob : File)
| Finished.

Record World : Type := {
  ui : State;
  load : LoadPhase;
  (** calls of [changePose] whose promise has not settled *)
  inflight : list ChangePoseArgs;
  (** every call of [changePose] made so far, oldest first *)
  issued : list ChangePoseArgs
}.

(** [loadInitialImage] from its [await fetch] on.  When the fetch fails
    (or the response is not [ok]): the [catch] and [finally] clauses. *)
Definition loadInitialImageFailed (s : State) : State :=
  setIsLoading false
    (setError (Some "Could not load the sample image. Please upload your own.") s).

(** When the blob has arrived the reader is started and only the
    [finally] clause is left to run. *)
Definition loadInitialImageFetched (s : State) : State := setIsLoading false s.

(** [reader.onloadend] of [loadInitialImage]. *)
Definition onloadend (blob : File) (s : State) : State :=
  setOriginalImage
    (Some {| dataUrl := readAsDataURL blob; mimeType := type blob |}) s.

Definition withUi (s : State) (w : World) : World :=
  {| ui := s; load := load w; inflight := inflight w; issued := issued w |}.

(** After the first render and the synchronous start of the effect. *)
Definition start : World :=
  {| ui := setIsLoading true (setError None initial);
     load := Fetching; inflight := []; issued := [] |}.

(** One invocation of [handleGeneratePose], whatever the button shows. *)
Definition invokeGenerate (w : World) : World :=
  match handleGeneratePose (ui w) with
  | Returned s => withUi s w
  | Awaiting s call =>
      {| ui := s; load := load w;
         inflight := inflight w ++ [call]; issued := issued w ++ [call] |}
  end.

(** A click on the button: nothing happens while it is [disabled]. *)
Definition clickGenerate (w : World) : World :=
  if isGenerationDisabled (ui w) then w else invokeGenerate w.

Definition dropNth {A} (i : nat) (l : list A) : list A :=
  firstn i l ++ skipn (S i) l.

Inductive Event : Type :=
| FetchFailed
| FetchDone (blob : File)
| ReaderEnded
| SourceChosen (file : option File)
| ClothingChosen (file : option File)
| ClothingRemoved
| BackgroundChosen (file : option File)
| BackgroundRemoved
| PoseTyped (v : string)
| ClothingTyped (v : string)
| BackgroundTyped (v : string)
| PreserveToggled (v : bool)
| GenerateClicked
| CallSettled (i : nat) (r : settled).

Definition whenb (b : bool) (w : World) : option World :=
  if b then Some w else None.

(** [step w e] is [None] when [e] cannot happen in [w]: the control is
    not rendered or is disabled, or there is no such pending call.
    Choosing a file and the end of its [FileReader] are one event; the
    callback of a reference uploader may arrive after the uploader has
    been replaced by the preview, so a chosen reference image is taken in
    any state. *)
Definition step (w : World) (e : Event) : option World :=
  let s := ui w in
  match e with
  | FetchFailed =>
      match load w with
      | Fetching =>
          Some {| ui := loadInitialImageFailed s;
                  load := Finished; inflight := inflight w; issued := issued w |}
      | _ => None
      end
  | FetchDone blob =>
      match load w with
      | Fetching =>
          Some {| ui := loadInitialImageFetched s; load := Reading blob;
                  inflight := inflight w; issued := issued w |}
      | _ => None
      end
  | ReaderEnded =>
      match load w with
      | Reading blob =>
          Some {| ui := onloadend blob s;
                  load := Finished; inflight := inflight w; issued := issued w |}
      | _ => None
      end
  | SourceChosen file =>
      whenb (negb (isLoading s && absent (originalImage s)))
        match handleFileChange file with
        | Some img => withUi (handleImageUpload img s) w
        | None => w
        end
  | ClothingChosen file =>
      match handleFileChange file with
      | Some img => Some (withUi (setClothingImage (Some img) s) w)
      | None => Some w
      end
  | ClothingRemoved =>
      whenb (negb (absent (clothingImage s))) (withUi (setClothingImage None s) w)
  | BackgroundChosen file =>
      match handleFileChange file with
      | Some img => Some (withUi (setBackgroundImage (Some img) s) w)
      | None => Some w
      end
  | BackgroundRemoved =>
      whenb (negb (absent (backgroundImage s))) (withUi (setBackgroundImage None s) w)
  | PoseTyped v =>
      whenb (negb (absent (originalImage s))) (withUi (setPrompt v s) w)
  | ClothingTyped v =>
      whenb (negb (absent (originalImage s) || negb (absent (clothingImage s))))
        (withUi (setClothingPrompt v s) w)
  | BackgroundTyped v =>
      whenb (negb (absent (originalImage s) || negb (absent (backgroundImage s))))
        (withUi (setBackgroundPrompt v s) w)
  | PreserveToggled v =>
      whenb (negb (absent (originalImage s))) (withUi (setPreserveBodyShape v s) w)
  | GenerateClicked =>
      whenb (negb (isGenerationDisabled s)) (invokeGenerate w)
  | CallSettled i r =>
      whenb (Nat.ltb i (List.length (inflight w)))
        {| ui := resume r s; load := load w;
           inflight := dropNth i (inflight w); issued := issued w |}
  end.

(** The worlds the application can be in. *)
Inductive reachable : World -> Prop :=
| reachable_start : reachable start
| reachable_step w e w' :
    reachable w -> step w e = Some w' -> reachable w'.

(** Running a list of events from a world. *)
Fixpoint run (w : World) (es : list Event) : option World :=
  match es with
  | [] => Some w
  | e :: es' => match step w e with Some w' => run w' es' | None => None end
  end.

(** A result and an error are not shown together. *)
Definition resultExcludesError (s : State) : Prop :=
  generatedImage s <> None -> error s = None.

(** What holds of every world the application reaches: at most one call
    is pending; while one is, the loading flag is up and neither a
    result nor an error is shown; a result excludes an error; and until
    the sample image has been fetched there is no source image, hence no
    call and no result. *)
Definition invariant (w : World) : Prop :=
  List.length (inflight w) <= 1
  /\ (inflight w <> [] ->
      isLoading (ui w) = true /\ generatedImage (ui w) = None
      /\ error (ui w) = None)
  /\ resultExcludesError (ui w)
  /\ (load w = Fetching ->
      isLoading (ui w) = true /\ originalImage (ui w) = None
      /\ inflight w = [] /\ generatedImage (ui w) = None).

End App.

(** ** Concrete submissions and files *)

Module Scenario.
Import Uploader App.

(** The two categories that take a text or a reference image. *)
Inductive Category : Type := Clothing | Background.

Definition categoryImage (c : Category) (s : State) : option ImageFile :=
  match c with Clothing => clothingImage s | Background => backgroundImage s end.

Definition categoryText (c : Category) (s : State) : string :=
  match c with Clothing => clothingPrompt s | Background => backgroundPrompt s end.

Definition callData (c : Category) (a : ChangePoseArgs) : Js.value :=
  match c with Clothing => arg_clothingData a | Background => arg_backgroundData a end.

Definition callMimeType (c : Category) (a : ChangePoseArgs) : Js.value :=
  match c with
  | Clothing => arg_clothingMimeType a
  | Background => arg_backgroundMimeType a
  end.

Definition callText (c : Category) (a : ChangePoseArgs) : string :=
  match c with Clothing => arg_clothingPrompt a | Background => arg_backgroundPrompt a end.

Definition person : ImageFile :=
  {| dataUrl := "data:image/png;base64,AAAA"; mimeType := "image/png" |}.

Definition dress : ImageFile :=
  {| dataUrl := "data:image/jpeg;base64,BBBB"; mimeType := "image/jpeg" |}.

(** A state as the controls leave it, nothing loading. *)
Definition submission (original clothing background : option ImageFile)
    (pose clothingText backgroundText : string) : State :=
  {| originalImage := original; backgroundImage := background;
     clothingImage := clothing; generatedImage := None; prompt := pose;
     clothingPrompt := clothingText; backgroundPrompt := backgroundText;
     preserveBodyShape := true; isLoading := false; error := None |}.

Definition noSource : State := submission None None None "wave" "" "".

Definition noModifier : State := submission (Some person) None None "" "" "".

Definition superhero : State :=
  submission (Some person) None None "superhero landing pose" "" "".

(** A clothing reference image together with a clothing text. *)
Definition redDress : State :=
  submission (Some person) (Some dress) None "" "red dress" "".

(** A zero-byte file declared as PNG, and the asset the uploader makes
    of it. *)
Definition emptyPng : File := {| type := "image/png"; bytes := [] |}.

Definition emptyPngAsset : ImageFile :=
  {| dataUrl := "data:image/png;base64,"; mimeType := "image/png" |}.

(** An asset whose URL has no comma at all. *)
Definition bareAsset : ImageFile := {| dataUrl := "data:"; mimeType := "image/png" |}.

Definition emptyBackground : State :=
  submission (Some person) None (Some emptyPngAsset) "" "" "".

Definition bareClothing : State :=
  submission (Some person) (Some bareAsset) None "" "" "".

Definition emptySource : State :=
  submission (Some emptyPngAsset) None None "wave" "" "".

Definition gif : File := {| type := "image/gif"; bytes := [Byte.x47; Byte.x49; Byte.x46] |}.

Definition textFile : File := {| type := "text/plain"; bytes := [Byte.x68; Byte.x69] |}.

Definition man : File := {| type := "image/png"; bytes := [Byte.x4d; Byte.x61; Byte.x6e] |}.

(** The application after the sample image has loaded and a pose has
    been typed; then with one call pending; then with its result. *)
Definition toReady : list Event := [FetchDone man; ReaderEnded; PoseTyped "wave"].

Definition toPending : list Event := toReady ++ [GenerateClicked].

Definition toSucceeded : list Event :=
  toPending ++ [CallSettled 0 (Resolved "CCCC")].

(** A clothing text typed, then a clothing image chosen, then the button. *)
Definition jpegDress : File :=
  {| type := "image/jpeg"; bytes := [Byte.xff; Byte.xd8; Byte.xff] |}.

Definition toRedDress : list Event :=
  [FetchDone man; ReaderEnded; ClothingTyped "red dress";
   ClothingChosen (Some jpegDress); GenerateClicked].

(** A zero-byte PNG chosen as background, then the button. *)
Definition toEmptyBackground : list Event :=
  [FetchDone man; ReaderEnded; BackgroundChosen (Some emptyPng); GenerateClicked].

(** A zero-byte PNG chosen as source image, a pose typed, then the button. *)
Definition toEmptySource : list Event :=
  toReady ++ [SourceChosen (Some emptyPng); GenerateClicked].

Definition orStart (o : option World) : World :=
  match o with Some w => w | None => start end.

Definition ready : World := orStart (run start toReady).

Definition pending : World := orStart (run start toPending).

Definition succeeded : World := orStart (run start toSucceeded).

End Scenario.

(** ** [components/ImageUploader.tsx]: the drop zone and the file picker *)

Module DropZone.
Import Uploader.

(** The [isDragging] cell after each drag handler. *)
Definition onDragEnter (isDragging : bool) : bool := true.

Definition onDragLeave (isDragging : bool) : bool := false.

Definition onDragOver (isDragging : bool) : bool := isDragging.

(** [onDrop]: the [isDragging] cell afterwards, and the asset that reaches
    [onImageUpload], if any.  [files] is [e.dataTransfer.files]. *)
Definition onDrop (files : list File) (isDragging : bool) : bool * option ImageFile :=
  (false,
   match files with
   | f :: _ => handleFileChange (Some f)
   | [] => None
   end).

(** [onChange] of the file input: [e.target.files] may be [null], and
    [files[0]] of an empty list is [undefined]. *)
Definition onChange (files : option (list File)) : option ImageFile :=
  match files with
  | Some (f :: _) => handleFileChange (Some f)
  | Some [] => handleFileChange None
  | None => handleFileChange None
  end.

End DropZone.

(** ** [App.tsx], the text-only variant *)

Module Simple.
Import Uploader.

(** Its eight [useState] cells: no reference images. *)
Record State : Type := {
  originalImage : option ImageFile;
  generatedImage : option string;
  prompt : string;
  clothingPrompt : string;
  backgroundPrompt : string;
  preserveBodyShape : bool;
  isLoading : bool;
  error : option string
}.

Definition setGeneratedImage (v : option string) (s : State) : State :=
  {| originalImage := originalImage s; generatedImage := v;
     prompt := prompt s; clothingPrompt := clothingPrompt s;
     backgroundPrompt := backgroundPrompt s;
     preserveBodyShape := preserveBodyShape s; isLoading := isLoading s;
     error := error s |}.

Definition setIsLoading (v : bool) (s : State) : State :=
  {| originalImage := originalImage s; generatedImage := generatedImage s;
     prompt := prompt s; clothingPrompt := clothingPrompt s;
     backgroundPrompt := backgroundPrompt s;
     preserveBodyShape := preserveBodyShape s; isLoading := v;
     error := error s |}.

Definition setError (v : option string) (s : State) : State :=
  {| originalImage := originalImage s; generatedImage := generatedImage s;
     prompt := prompt s; clothingPrompt := clothingPrompt s;
     backgroundPrompt := backgroundPrompt s;
     preserveBodyShape := preserveBodyShape s; isLoading := isLoading s;
     error := v |}.

(** The six positional arguments of its call of [changePose]. *)
Record ChangePoseArgs : Type := {
  arg_base64Data : string;
  arg_mimeType : string;
  arg_prompt : string;
  arg_backgroundPrompt : string;
  arg_clothingPrompt : string;
  arg_preserveBodyShape : bool
}.

Definition nothingToChange (s : State) : bool :=
  negb (Js.truthy (Js.trim (prompt s)))
  && negb (Js.truthy (Js.trim (clothingPrompt s)))
  && negb (Js.truthy (Js.trim (backgroundPrompt s))).

Inductive outcome : Type :=
| Returned (s : State)
| Awaiting (s : State) (call : ChangePoseArgs).

Definition failed (message : string) (s : State) : State :=
  setIsLoading false
    (setError (Some ("Failed to generate new pose. " ++ message)) s).

(** [handleGeneratePose], up to the [await]. *)
Definition handleGeneratePose (s : State) : outcome :=
  match originalImage s with
  | None => Returned (setError (Some App.validationMessage) s)
  | Some original =>
      if nothingToChange s
      then Returned (setError (Some App.validationMessage) s)
      else
        let s1 := setGeneratedImage None (setError None (setIsLoading true s)) in
        match Js.index (Js.split ","%char (dataUrl original)) 1 with
        | Some data =>
            if Js.truthy data
            then Awaiting s1
                   {| arg_base64Data := data;
                      arg_mimeType := mimeType original;
                      arg_prompt := prompt s;
                      arg_backgroundPrompt := backgroundPrompt s;
                      arg_clothingPrompt := clothingPrompt s;
                      arg_preserveBodyShape := preserveBodyShape s |}
            else Returned (failed "Invalid image data URL." s1)
        | None => Returned (failed "Invalid image data URL." s1)
        end
  end.

Definition isGenerationDisabled (s : State) : bool :=
  isLoading s || App.absent (originalImage s) || nothingToChange s.

(** What the text-only variant sees of a state, an outcome and a request
    of the richer one. *)
Definition ofState (s : App.State) : State :=
  {| originalImage := App.originalImage s;
     generatedImage := App.generatedImage s;
     prompt := App.prompt s; clothingPrompt := App.clothingPrompt s;
     backgroundPrompt := App.backgroundPrompt s;
     preserveBodyShape := App.preserveBodyShape s;
     isLoading := App.isLoading s; error := App.error s |}.

Definition ofArgs (a : App.ChangePoseArgs) : ChangePoseArgs :=
  {| arg_base64Data := App.arg_base64Data a;
     arg_mimeType := App.arg_mimeType a;
     arg_prompt := App.arg_prompt a;
     arg_backgroundPrompt := App.arg_backgroundPrompt a;
     arg_clothingPrompt := App.arg_clothingPrompt a;
     arg_preserveBodyShape := App.arg_preserveBodyShape a |}.

Definition ofOutcome (o : App.outcome) : outcome :=
  match o with
  | App.Returned s => Returned (ofState s)
  | App.Awaiting s call => Awaiting (ofState s) (ofArgs call)
  end.

End Simple.

(** ** What [App.tsx] renders, and what a request holds *)

Module View.
Import Uploader App.

(** A string all of white space (the empty one too). *)
Fixpoint blank (s : string) : bool :=
  match s with
  | EmptyString => true
  | String c r => Js.is_white_space c && blank r
  end.

(** The three blocks of the result area and the error box, as their
    conditions read: [isLoading && !generatedImage], [generatedImage &&],
    [!generatedImage && !isLoading && !error], and [error &&]. *)
Definition showsSpinner (s : State) : bool :=
  isLoading s && negb (Js.truthy_opt (generatedImage s)).

Definition showsResult (s : State) : bool := Js.truthy_opt (generatedImage s).

Definition showsPlaceholder (s : State) : bool :=
  negb (Js.truthy_opt (generatedImage s)) && negb (isLoading s)
  && negb (Js.truthy_opt (error s)).

Definition showsError (s : State) : bool := Js.truthy_opt (error s).

Definition shown (s : State) : list bool :=
  [showsSpinner s; showsResult s; showsPlaceholder s; showsError s].

(** [isLoading && !originalImage]: a loader stands in for the source
    uploader. *)
Definition sourceUploaderHidden (s : State) : bool :=
  isLoading s && absent (originalImage s).

Definition isNull (v : Js.value) : bool :=
  match v with Js.Null => true | _ => false end.

(** A request worth sending: a source payload, and a text or a reference
    image to act on. *)
Definition worthSending (a : ChangePoseArgs) : bool :=
  Js.truthy (arg_base64Data a)
  && (Js.truthy (Js.trim (arg_prompt a))
      || Js.truthy (Js.trim (arg_clothingPrompt a))
      || Js.truthy (Js.trim (arg_backgroundPrompt a))
      || negb (isNull (arg_backgroundData a))
      || negb (isNull (arg_clothingData a))).

(** Two states with the same inputs of a submission. *)
Definition sameInputs (s t : State) : Prop :=
  originalImage s = originalImage t
  /\ backgroundImage s = backgroundImage t
  /\ clothingImage s = clothingImage t
  /\ prompt s = prompt t
  /\ clothingPrompt s = clothingPrompt t
  /\ backgroundPrompt s = backgroundPrompt t
  /\ preserveBodyShape s = preserveBodyShape t.

(** The request an outcome carries, if any. *)
Definition requestOf (o : outcome) : option ChangePoseArgs :=
  match o with Returned _ => None | Awaiting _ call => Some call end.

(** Something is awaited: the sample image's fetch, or a call. *)
Definition awaiting (w : World) : bool :=
  match load w with Fetching => true | _ => false end
  || negb (match inflight w with [] => true | _ => false end).

Definition loadFailureMessage : string :=
  "Could not load the sample image. Please upload your own.".

(** A finished result with inputs that no longer pass the guard, a source
    image without payload, and worlds around the failure of a call. *)
Definition staleResult : State :=
  {| originalImage := Some Scenario.person; backgroundImage := None;
     clothingImage := None; generatedImage := Some "CCCC"; prompt := "";
     clothingPrompt := ""; backgroundPrompt := ""; preserveBodyShape := true;
     isLoading := false; error := None |}.

Definition toFailed : list Event :=
  Scenario.toPending ++ [CallSettled 0 (Rejected (Js.Error "timeout"))].

Definition failedWorld : World := Scenario.orStart (run start toFailed).

Definition toEmptySourceChosen : list Event :=
  Scenario.toReady ++ [SourceChosen (Some Scenario.emptyPng)].

Definition emptySourceWorld : World :=
  Scenario.orStart (run start toEmptySourceChosen).

Definition twoFiles : list File := [Scenario.textFile; Scenario.man].

(** The sample image failed to load and a clothing image was chosen. *)
Definition toFailedLoad : list Event :=
  [FetchFailed; ClothingChosen (Some Scenario.jpegDress)].

Definition failedLoadWorld : World := Scenario.orStart (run start toFailedLoad).

End View.

(** * Properties *)

Import Uploader App Scenario.

Example split_data_url :
  Js.split ","%char "data:image/png;base64,AAAA" = ["data:image/png;base64"; "AAAA"].
Proof. reflexivity. Qed.

Example split_two_commas : Js.split ","%char "a,,b" = ["a"; ""; "b"].
Proof. reflexivity. Qed.

Example trim_spaces : Js.trim "  red dress  " = "red dress".
Proof. reflexivity. Qed.

Example encode_Man : Base64.encode [Byte.x4d; Byte.x61; Byte.x6e] = "TWFu".
Proof. reflexivity. Qed.

Example encode_Ma : Base64.encode [Byte.x4d; Byte.x61] = "TWE=".
Proof. reflexivity. Qed.

Example encode_M : Base64.encode [Byte.x4d] = "TQ==".
Proof. reflexivity. Qed.

Example decode_Ma : Base64.decode "TWE=" = Some [Byte.x4d; Byte.x61].
Proof. reflexivity. Qed.

Example ready_state :
  run start toReady = Some ready /\ isGenerationDisabled (ui ready) = false.
Proof. split; reflexivity. Qed.

Example pending_state :
  run start toPending = Some pending /\ List.length (inflight pending) = 1
  /\ isLoading (ui pending) = true.
Proof. repeat split; reflexivity. Qed.

Example succeeded_state :
  run start toSucceeded = Some succeeded
  /\ generatedImage (ui succeeded) = Some "CCCC" /\ error (ui succeeded) = None.
Proof. repeat split; reflexivity. Qed.

Example upload_empty_png : handleFileChange (Some emptyPng) = Some emptyPngAsset.
Proof. reflexivity. Qed.

(** ** Validation *)

Lemma nothingToChange_empty (s : State) :
  prompt s = "" -> clothingPrompt s = "" -> backgroundPrompt s = "" ->
  clothingImage s = None -> backgroundImage s = None ->
  nothingToChange s = true.
Proof.
  intros Hp Hc Hb Hci Hbi. unfold nothingToChange.
  rewrite Hp, Hc, Hb, Hci, Hbi. reflexivity.
Qed.

Lemma invokeGenerate_returned (w : World) (s' : State) :
  handleGeneratePose (ui w) = Returned s' ->
  invokeGenerate w = withUi s' w.
Proof. intros H. unfold invokeGenerate. rewrite H. reflexivity. Qed.

(** The handler rejects exactly when its guard holds, whichever operand
    made it hold. *)
Lemma guard_rejects (s : State) (r : Rejection) :
  guard s = Some r ->
  handleGeneratePose s = Returned (setError (Some validationMessage) s).
Proof.
  unfold guard, handleGeneratePose.
  destruct (originalImage s) as [original|]; cbn [absent]; [|reflexivity].
  destruct (nothingToChange s); [reflexivity | discriminate].
Qed.

Lemma guard_passes (s : State) :
  guard s = None ->
  exists original, originalImage s = Some original /\ nothingToChange s = false.
Proof.
  unfold guard.
  destruct (originalImage s) as [original|]; cbn [absent]; [|discriminate].
  destruct (nothingToChange s); [discriminate|].
  intros _. exists original. split; reflexivity.
Qed.

(** C3: a submission without a source image is rejected for that reason,
    whatever its other fields are (the test of the source image is the
    first operand of the guard): [handleGeneratePose] only sets the
    validation error and returns, and invoking it makes no call of
    [changePose]. *)
Theorem C3_no_source_image_rejected (s : State) :
  originalImage s = None ->
  guard s = Some NoSourceImage
  /\ handleGeneratePose s = Returned (setError (Some validationMessage) s)
  /\ forall w, ui w = s ->
       issued (invokeGenerate w) = issued w
       /\ inflight (invokeGenerate w) = inflight w.
Proof.
  intros Hsrc.
  assert (Hg : guard s = Some NoSourceImage).
  { unfold guard. rewrite Hsrc. reflexivity. }
  pose proof (guard_rejects s _ Hg) as Hret.
  split; [exact Hg|]. split; [exact Hret|].
  intros w Hw. subst s.
  rewrite (invokeGenerate_returned w _ Hret). split; reflexivity.
Qed.

Lemma C3_witness :
  originalImage noSource = None
  /\ nothingToChange noSource = false
  /\ guard noSource = Some NoSourceImage
  /\ handleGeneratePose noSource = Returned (setError (Some validationMessage) noSource).
Proof.
  split; [reflexivity|]. split; [reflexivity|].
  split; apply (C3_no_source_image_rejected noSource); reflexivity.
Defined.

(** C4: a submission with a source image and every modifier empty (no
    pose text, no clothing text or image, no background text or image) is
    rejected for that reason: [handleGeneratePose] only sets the
    validation error and returns, and invoking it makes no call of
    [changePose]. *)
Theorem C4_no_modifier_rejected (s : State) (img : ImageFile) :
  originalImage s = Some img ->
  prompt s = "" ->
  clothingPrompt s = "" -> clothingImage s = None ->
  backgroundPrompt s = "" -> backgroundImage s = None ->
  guard s = Some NoModifierSpecified
  /\ handleGeneratePose s = Returned (setError (Some validationMessage) s)
  /\ forall w, ui w = s ->
       issued (invokeGenerate w) = issued w
       /\ inflight (invokeGenerate w) = inflight w.
Proof.
  intros Hsrc Hp Hc Hci Hb Hbi.
  assert (Hg : guard s = Some NoModifierSpecified).
  { unfold guard. rewrite Hsrc.
    rewrite (nothingToChange_empty s Hp Hc Hb Hci Hbi). reflexivity. }
  pose proof (guard_rejects s _ Hg) as Hret.
  split; [exact Hg|]. split; [exact Hret|].
  intros w Hw. subst s.
  rewrite (invokeGenerate_returned w _ Hret). split; reflexivity.
Qed.

Lemma C4_witness :
  originalImage noModifier = Some person
  /\ guard noModifier = Some NoModifierSpecified
  /\ handleGeneratePose noModifier
     = Returned (setError (Some validationMessage) noModifier).
Proof.
  split; [reflexivity|].
  split; apply (C4_no_modifier_rejected noModifier person); reflexivity.
Defined.

Example white_space_only_rejected :
  guard (submission (Some person) None None "  " " " "")
  = Some NoModifierSpecified.
Proof. reflexivity. Qed.

(** ** The request handed to [changePose] *)

(** Every way [handleGeneratePose] reaches the [await]. *)
Lemma handleGeneratePose_awaiting (s s1 : State) (call : ChangePoseArgs) :
  handleGeneratePose s = Awaiting s1 call ->
  exists original data,
    originalImage s = Some original
    /\ nothingToChange s = false
    /\ Js.index (Js.split ","%char (dataUrl original)) 1 = Some data
    /\ Js.truthy data = true
    /\ s1 = setGeneratedImage None (setError None (setIsLoading true s))
    /\ call = {| arg_base64Data := data;
                 arg_mimeType := mimeType original;
                 arg_backgroundData := referenceData (backgroundImage s);
                 arg_backgroundMimeType := referenceMimeType (backgroundImage s);
                 arg_clothingData := referenceData (clothingImage s);
                 arg_clothingMimeType := referenceMimeType (clothingImage s);
                 arg_prompt := prompt s;
                 arg_backgroundPrompt := backgroundPrompt s;
                 arg_clothingPrompt := clothingPrompt s;
                 arg_preserveBodyShape := preserveBodyShape s |}.
Proof.
  unfold handleGeneratePose.
  destruct (originalImage s) as [original|] eqn:Ho; [|discriminate].
  destruct (nothingToChange s) eqn:Hn; [discriminate|].
  destruct (Js.index (Js.split ","%char (dataUrl original)) 1) as [data|] eqn:Hd;
    [|discriminate].
  destruct (Js.truthy data) eqn:Ht; [|discriminate].
  intros H. injection H as <- <-.
  exists original, data. repeat split; assumption.
Qed.

(** And conversely: a source image with a payload segment and something to
    change reach the [await]. *)
Lemma handleGeneratePose_accepts (s : State) (original : ImageFile) (data : string) :
  originalImage s = Some original ->
  nothingToChange s = false ->
  Js.index (Js.split ","%char (dataUrl original)) 1 = Some data ->
  Js.truthy data = true ->
  handleGeneratePose s
  = Awaiting (setGeneratedImage None (setError None (setIsLoading true s)))
      {| arg_base64Data := data;
         arg_mimeType := mimeType original;
         arg_backgroundData := referenceData (backgroundImage s);
         arg_backgroundMimeType := referenceMimeType (backgroundImage s);
         arg_clothingData := referenceData (clothingImage s);
         arg_clothingMimeType := referenceMimeType (clothingImage s);
         arg_prompt := prompt s;
         arg_backgroundPrompt := backgroundPrompt s;
         arg_clothingPrompt := clothingPrompt s;
         arg_preserveBodyShape := preserveBodyShape s |}.
Proof.
  intros Ho Hn Hd Ht. unfold handleGeneratePose.
  rewrite Ho, Hn, Hd, Ht. reflexivity.
Qed.

(** C2, as the code has it: when a category has both a reference image
    and a text, the request handed to [changePose] carries the image (the
    segment after the first comma of its URL, and its media type) and
    carries the text too, unchanged; the request is a function of the
    submission. *)
Theorem C2_image_and_text_both_sent (c : Category) (s s1 : State)
    (call : ChangePoseArgs) (img : ImageFile) :
  handleGeneratePose s = Awaiting s1 call ->
  categoryImage c s = Some img ->
  callData c call = Js.of_index (Js.index (Js.split ","%char (dataUrl img)) 1)
  /\ callMimeType c call = Js.Str (mimeType img)
  /\ callText c call = categoryText c s.
Proof.
  intros Hrun Himg.
  destruct (handleGeneratePose_awaiting s s1 call Hrun)
    as (original & data & _ & _ & _ & _ & _ & ->).
  destruct c; simpl in *; rewrite Himg; repeat split; reflexivity.
Qed.

Lemma C2_witness :
  exists s1 call,
    handleGeneratePose redDress = Awaiting s1 call
    /\ categoryImage Clothing redDress = Some dress
    /\ callData Clothing call = Js.Str "BBBB"
    /\ callMimeType Clothing call = Js.Str "image/jpeg"
    /\ callText Clothing call = "red dress".
Proof.
  eexists. eexists.
  split; [reflexivity|]. split; [reflexivity|].
  exact (C2_image_and_text_both_sent Clothing redDress _ _ dress
           eq_refl eq_refl).
Defined.

(** C2, counterexample: with a clothing image set and the clothing text
    "red dress", the text is part of the request handed to [changePose]. *)
Lemma C2_text_not_ignored :
  clothingImage redDress = Some dress
  /\ clothingPrompt redDress = "red dress"
  /\ exists s1 call,
       handleGeneratePose redDress = Awaiting s1 call
       /\ arg_clothingData call = Js.Str "BBBB"
       /\ arg_clothingPrompt call = "red dress".
Proof.
  split; [reflexivity|]. split; [reflexivity|].
  eexists. eexists. split; [reflexivity|]. split; reflexivity.
Qed.

(** C9: with a source image that has a payload segment, the pose text
    "superhero landing pose" and nothing else, the request has exactly
    that pose text, empty clothing and background texts, no reference
    image, and the body-shape flag of the submission, which is [true]
    when left at its initial value. *)
Theorem C9_superhero_landing (s : State) (original : ImageFile) (data : string) :
  originalImage s = Some original ->
  Js.index (Js.split ","%char (dataUrl original)) 1 = Some data ->
  Js.truthy data = true ->
  prompt s = "superhero landing pose" ->
  clothingPrompt s = "" -> clothingImage s = None ->
  backgroundPrompt s = "" -> backgroundImage s = None ->
  preserveBodyShape initial = true
  /\ exists s1,
       handleGeneratePose s
       = Awaiting s1
           {| arg_base64Data := data;
              arg_mimeType := mimeType original;
              arg_backgroundData := Js.Null;
              arg_backgroundMimeType := Js.Null;
              arg_clothingData := Js.Null;
              arg_clothingMimeType := Js.Null;
              arg_prompt := "superhero landing pose";
              arg_backgroundPrompt := "";
              arg_clothingPrompt := "";
              arg_preserveBodyShape := preserveBodyShape s |}.
Proof.
  intros Ho Hd Ht Hp Hc Hci Hb Hbi.
  split; [reflexivity|].
  assert (Hn : nothingToChange s = false).
  { unfold nothingToChange. rewrite Hp. reflexivity. }
  rewrite (handleGeneratePose_accepts s original data Ho Hn Hd Ht).
  rewrite Hp, Hc, Hci, Hb, Hbi. simpl. eexists. reflexivity.
Qed.

Lemma C9_witness :
  preserveBodyShape superhero = preserveBodyShape initial
  /\ exists s1,
       handleGeneratePose superhero
       = Awaiting s1
           {| arg_base64Data := "AAAA";
              arg_mimeType := "image/png";
              arg_backgroundData := Js.Null;
              arg_backgroundMimeType := Js.Null;
              arg_clothingData := Js.Null;
              arg_clothingMimeType := Js.Null;
              arg_prompt := "superhero landing pose";
              arg_backgroundPrompt := "";
              arg_clothingPrompt := "";
              arg_preserveBodyShape := true |}.
Proof.
  split; [reflexivity|].
  apply (C9_superhero_landing superhero person "AAAA"); reflexivity.
Defined.

(** ** Failures of the external call *)

Lemma append_empty_r (m : string) : m ++ "" = m.
Proof. induction m as [|c m IH]; simpl; [reflexivity | now rewrite IH]. Qed.

Lemma occurs_in_suffix (pre m : string) : Js.occurs_in m (pre ++ m).
Proof. exists pre, EmptyString. now rewrite append_empty_r. Qed.

(** C5, as the code has it: whatever value the promise of [changePose] is
    rejected with, the resumed handler ends (nothing is thrown further)
    with [isLoading] false, the result untouched and an error text set.
    For an [Error] the text is "Failed to generate new pose. " followed by
    the error's message, which it thus contains verbatim; for any other
    thrown value it is "Failed to generate new pose. An unknown error
    occurred.", whatever the value holds. *)
Theorem C5_client_failure_caught (s : State) (e : Js.thrown) :
  isLoading (resume (Rejected e) s) = false
  /\ generatedImage (resume (Rejected e) s) = generatedImage s
  /\ match e with
     | Js.Error message =>
         error (resume (Rejected e) s)
         = Some ("Failed to generate new pose. " ++ message)
         /\ Js.occurs_in message ("Failed to generate new pose. " ++ message)
     | Js.NonError _ =>
         error (resume (Rejected e) s)
         = Some "Failed to generate new pose. An unknown error occurred."
     end.
Proof.
  split; [reflexivity|]. split; [reflexivity|].
  destruct e as [message|printed].
  - split; [reflexivity|]. apply occurs_in_suffix.
  - reflexivity.
Qed.

(** Peels one character off a supposed occurrence of a text in a literal. *)
Ltac no_occurrence H pre :=
  repeat (destruct pre as [|? pre];
          [ cbn in H; discriminate H
          | cbn in H; injection H as _ H ]);
  destruct pre; cbn in H; discriminate H.

(** C5, counterexample: when the promise of [changePose] is rejected with
    the string "timeout" (a thrown value that is not an [Error]), the
    error text is the generic one, in which "timeout" does not occur. *)
Lemma C5_thrown_string_message_lost :
  error (resume (Rejected (Js.NonError "timeout")) (ui pending))
  = Some "Failed to generate new pose. An unknown error occurred."
  /\ ~ Js.occurs_in "timeout"
        "Failed to generate new pose. An unknown error occurred.".
Proof.
  split; [reflexivity|].
  intros (pre & post & H). no_occurrence H pre.
Qed.

Example timeout_scenario :
  error (resume (Rejected (Js.Error "timeout")) (ui pending))
  = Some "Failed to generate new pose. timeout"
  /\ isLoading (resume (Rejected (Js.Error "timeout")) (ui pending)) = false.
Proof. split; reflexivity. Qed.

Example thrown_string_scenario :
  error (resume (Rejected (Js.NonError "timeout")) (ui pending))
  = Some "Failed to generate new pose. An unknown error occurred.".
Proof. reflexivity. Qed.

(** ** Assets without a payload segment *)

(** The source image is checked: without a payload segment the handler
    ends with the error set and never reaches [changePose]. *)
Lemma source_without_payload_refused (s : State) (original : ImageFile) :
  originalImage s = Some original ->
  nothingToChange s = false ->
  Js.truthy_opt (Js.index (Js.split ","%char (dataUrl original)) 1) = false ->
  exists s', handleGeneratePose s = Returned s'
    /\ error s' = Some "Failed to generate new pose. Invalid image data URL."
    /\ isLoading s' = false.
Proof.
  intros Ho Hn Hd. unfold handleGeneratePose. rewrite Ho, Hn.
  destruct (Js.index (Js.split ","%char (dataUrl original)) 1) as [data|].
  - simpl in Hd. rewrite Hd. eexists. repeat split; reflexivity.
  - eexists. repeat split; reflexivity.
Qed.

(** C6, at the failing inputs: a background image read from a zero-byte
    PNG file has an empty payload segment, and a clothing image whose URL
    has no comma has none; in both cases [handleGeneratePose] reaches
    [changePose], handing it the empty string, respectively [undefined],
    as the reference image.  The first happens in the running
    application: the file chosen as background, then the button. *)
Lemma C6_reference_image_unchecked :
  handleFileChange (Some emptyPng) = Some emptyPngAsset
  /\ Js.index (Js.split ","%char (dataUrl emptyPngAsset)) 1 = Some ""
  /\ (exists s1 call,
        handleGeneratePose emptyBackground = Awaiting s1 call
        /\ arg_backgroundData call = Js.Str "")
  /\ Js.index (Js.split ","%char (dataUrl bareAsset)) 1 = None
  /\ (exists s1 call,
        handleGeneratePose bareClothing = Awaiting s1 call
        /\ arg_clothingData call = Js.Undefined)
  /\ (exists w call,
        run start toEmptyBackground = Some w
        /\ issued w = [call] /\ inflight w = [call]
        /\ arg_backgroundData call = Js.Str "").
Proof.
  split; [reflexivity|]. split; [reflexivity|].
  split; [eexists; eexists; split; reflexivity|].
  split; [reflexivity|].
  split; [eexists; eexists; split; reflexivity|].
  eexists; eexists. repeat split; reflexivity.
Qed.

(** ** Accepted uploads *)

(** C7, as the code has it: [handleFileChange] makes an asset of a file
    exactly when its declared type starts with "image/", and the asset
    carries that declared type; the three listed types are accepted; a file
    of any other kind is dropped without a trace, leaving the application
    as it was. *)
Theorem C7_image_prefix_gate (f : File) :
  ((exists img, handleFileChange (Some f) = Some img)
   <-> Js.startsWith (type f) "image/" = true)
  /\ (forall img, handleFileChange (Some f) = Some img ->
        mimeType img = type f /\ dataUrl img = readAsDataURL f)
  /\ (forall t, In t ["image/png"; "image/jpeg"; "image/webp"] ->
        Js.startsWith t "image/" = true)
  /\ (Js.startsWith (type f) "image/" = false ->
        forall w, step w (ClothingChosen (Some f)) = Some w
                  /\ step w (BackgroundChosen (Some f)) = Some w
                  /\ (step w (SourceChosen (Some f)) = Some w
                      \/ step w (SourceChosen (Some f)) = None)).
Proof.
  unfold handleFileChange.
  split; [|split; [|split]].
  - destruct (Js.startsWith (type f) "image/"); split; intros H.
    + reflexivity.
    + eexists; reflexivity.
    + destruct H as [img H]; discriminate.
    + discriminate.
  - intros img H. destruct (Js.startsWith (type f) "image/"); [|discriminate].
    injection H as <-. split; reflexivity.
  - intros t [<-|[<-|[<-|[]]]]; reflexivity.
  - intros Hno w. unfold step, handleFileChange. rewrite Hno.
    split; [reflexivity|]. split; [reflexivity|].
    destruct (negb (isLoading (ui w) && absent (originalImage (ui w))));
      [left|right]; reflexivity.
Qed.

(** C7, counterexample: a GIF file dropped on an uploader becomes an
    asset whose media type is "image/gif", none of png, jpeg and webp; and
    a text file is turned down without any error being set. *)
Lemma C7_gif_accepted :
  (exists img, handleFileChange (Some gif) = Some img
               /\ mimeType img = "image/gif"
               /\ ~ In (mimeType img) ["image/png"; "image/jpeg"; "image/webp"])
  /\ handleFileChange (Some textFile) = None
  /\ (exists w', step ready (SourceChosen (Some textFile)) = Some w'
                 /\ error (ui w') = None).
Proof.
  split.
  - eexists. split; [reflexivity|]. split; [reflexivity|].
    simpl. intros [H|[H|[H|[]]]]; discriminate.
  - split; [reflexivity|]. eexists. split; reflexivity.
Qed.

(** ** Base64 and the split at the comma *)

Lemma value_of_char_of (x : Base64.sextet) :
  Base64.value_of (Base64.char_of x) = Some x.
Proof.
  destruct x as [[[[[b5 b4] b3] b2] b1] b0].
  destruct b5, b4, b3, b2, b1, b0; reflexivity.
Qed.

Lemma char_of_not_comma (x : Base64.sextet) :
  Ascii.eqb (Base64.char_of x) ","%char = false.
Proof.
  destruct x as [[[[[b5 b4] b3] b2] b1] b0].
  destruct b5, b4, b3, b2, b1, b0; reflexivity.
Qed.

Lemma value_of_pad : Base64.value_of Base64.pad = None.
Proof. reflexivity. Qed.

Lemma ungroup3_group3 (a b c : byte) (w x y z : Base64.sextet) :
  Base64.group3 a b c = (w, x, y, z) ->
  Base64.ungroup3 w x y z = (a, b, c).
Proof.
  unfold Base64.group3.
  pose proof (Byte.of_bits_to_bits a) as Ha.
  pose proof (Byte.of_bits_to_bits b) as Hb.
  pose proof (Byte.of_bits_to_bits c) as Hc.
  destruct (Byte.to_bits a) as (a0 & a1 & a2 & a3 & a4 & a5 & a6 & a7).
  destruct (Byte.to_bits b) as (b0 & b1 & b2 & b3 & b4 & b5 & b6 & b7).
  destruct (Byte.to_bits c) as (c0 & c1 & c2 & c3 & c4 & c5 & c6 & c7).
  intros H. injection H as <- <- <- <-.
  unfold Base64.ungroup3. rewrite Ha, Hb, Hc. reflexivity.
Qed.

(** The first byte needs only the first sextet and the top two bits of the
    second; the second byte the top four bits of the third. *)
Lemma ungroup3_first (a b c : byte) (w x y z y' z' : Base64.sextet) :
  Base64.group3 a b c = (w, x, y, z) ->
  fst (fst (Base64.ungroup3 w x y' z')) = a.
Proof.
  unfold Base64.group3.
  pose proof (Byte.of_bits_to_bits a) as Ha.
  destruct (Byte.to_bits a) as (a0 & a1 & a2 & a3 & a4 & a5 & a6 & a7).
  destruct (Byte.to_bits b) as (b0 & b1 & b2 & b3 & b4 & b5 & b6 & b7).
  destruct (Byte.to_bits c) as (c0 & c1 & c2 & c3 & c4 & c5 & c6 & c7).
  intros H. injection H as <- <- <- <-.
  destruct y' as [[[[[? ?] ?] ?] ?] ?], z' as [[[[[? ?] ?] ?] ?] ?].
  unfold Base64.ungroup3, fst. exact Ha.
Qed.

Lemma ungroup3_second (a b c : byte) (w x y z z' : Base64.sextet) :
  Base64.group3 a b c = (w, x, y, z) ->
  snd (fst (Base64.ungroup3 w x y z')) = b.
Proof.
  unfold Base64.group3.
  pose proof (Byte.of_bits_to_bits b) as Hb.
  destruct (Byte.to_bits a) as (a0 & a1 & a2 & a3 & a4 & a5 & a6 & a7).
  destruct (Byte.to_bits b) as (b0 & b1 & b2 & b3 & b4 & b5 & b6 & b7).
  destruct (Byte.to_bits c) as (c0 & c1 & c2 & c3 & c4 & c5 & c6 & c7).
  intros H. injection H as <- <- <- <-.
  destruct z' as [[[[[? ?] ?] ?] ?] ?].
  unfold Base64.ungroup3, fst, snd. exact Hb.
Qed.

Lemma decode_group (c1 c2 c3 c4 : ascii) (rest : string) :
  Base64.decode (String c1 (String c2 (String c3 (String c4 rest))))
  = match Base64.value_of c1, Base64.value_of c2,
          Base64.value_of c3, Base64.value_of c4 with
    | Some w, Some x, Some y, Some z =>
        match Base64.decode rest with
        | Some bs =>
            let '(a, b, c) := Base64.ungroup3 w x y z in Some (a :: b :: c :: bs)
        | None => None
        end
    | Some w, Some x, Some y, None =>
        match rest with
        | EmptyString =>
            if Ascii.eqb c4 Base64.pad
            then let '(a, b, _) := Base64.ungroup3 w x y y in Some [a; b]
            else None
        | _ => None
        end
    | Some w, Some x, None, None =>
        match rest with
        | EmptyString =>
            if (Ascii.eqb c3 Base64.pad && Ascii.eqb c4 Base64.pad)%bool
            then let '(a, _, _) := Base64.ungroup3 w x x x in Some [a]
            else None
        | _ => None
        end
    | _, _, _, _ => None
    end.
Proof. reflexivity. Qed.

Lemma encode_one (a : byte) :
  Base64.encode [a]
  = let '(w, x, _, _) := Base64.group3 a Base64.zero Base64.zero in
    String (Base64.char_of w) (String (Base64.char_of x)
      (String Base64.pad (String Base64.pad EmptyString))).
Proof. reflexivity. Qed.

Lemma encode_two (a b : byte) :
  Base64.encode [a; b]
  = let '(w, x, y, _) := Base64.group3 a b Base64.zero in
    String (Base64.char_of w) (String (Base64.char_of x)
      (String (Base64.char_of y) (String Base64.pad EmptyString))).
Proof. reflexivity. Qed.

Lemma encode_three (a b c : byte) (r : list byte) :
  Base64.encode (a :: b :: c :: r)
  = let '(w, x, y, z) := Base64.group3 a b c in
    String (Base64.char_of w) (String (Base64.char_of x)
      (String (Base64.char_of y) (String (Base64.char_of z) (Base64.encode r)))).
Proof. reflexivity. Qed.

(** Induction on a list three elements at a time. *)
Lemma list_by_threes {A} (P : list A -> Prop) :
  P [] -> (forall a, P [a]) -> (forall a b, P [a; b]) ->
  (forall a b c r, P r -> P (a :: b :: c :: r)) ->
  forall l, P l.
Proof.
  intros H0 H1 H2 H3 l.
  assert (H : P l /\ (forall a, P (a :: l)) /\ (forall a b, P (a :: b :: l))).
  { induction l as [|x l (IH0 & IH1 & IH2)].
    - repeat split; auto.
    - repeat split; auto. }
  exact (proj1 H).
Qed.

(** Decoding undoes encoding. *)
Lemma decode_encode (bs : list byte) :
  Base64.decode (Base64.encode bs) = Some bs.
Proof.
  induction bs as [|a|a b|a b c r IH] using list_by_threes.
  - reflexivity.
  - rewrite encode_one.
    destruct (Base64.group3 a Base64.zero Base64.zero) as [[[w x] y] z] eqn:Hg.
    rewrite decode_group, !value_of_char_of, value_of_pad.
    pose proof (ungroup3_first _ _ _ _ _ _ _ x x Hg) as Hf.
    destruct (Base64.ungroup3 w x x x) as [[a' b'] c']. simpl in Hf.
    subst a'. reflexivity.
  - rewrite encode_two.
    destruct (Base64.group3 a b Base64.zero) as [[[w x] y] z] eqn:Hg.
    rewrite decode_group, !value_of_char_of, value_of_pad.
    pose proof (ungroup3_first _ _ _ _ _ _ _ y y Hg) as Hf.
    pose proof (ungroup3_second _ _ _ _ _ _ _ y Hg) as Hs.
    destruct (Base64.ungroup3 w x y y) as [[a' b'] c']. simpl in Hf, Hs.
    subst a' b'. reflexivity.
  - rewrite encode_three.
    destruct (Base64.group3 a b c) as [[[w x] y] z] eqn:Hg.
    rewrite decode_group, !value_of_char_of, IH.
    rewrite (ungroup3_group3 _ _ _ _ _ _ _ Hg). reflexivity.
Qed.

Lemma encode_lacks_comma (bs : list byte) :
  Js.lacks ","%char (Base64.encode bs) = true.
Proof.
  induction bs as [|a|a b|a b c r IH] using list_by_threes.
  - reflexivity.
  - rewrite encode_one.
    destruct (Base64.group3 a Base64.zero Base64.zero) as [[[w x] y] z].
    cbn [Js.lacks]. rewrite !char_of_not_comma. reflexivity.
  - rewrite encode_two.
    destruct (Base64.group3 a b Base64.zero) as [[[w x] y] z].
    cbn [Js.lacks]. rewrite !char_of_not_comma. reflexivity.
  - rewrite encode_three.
    destruct (Base64.group3 a b c) as [[[w x] y] z].
    cbn [Js.lacks]. rewrite !char_of_not_comma, IH. reflexivity.
Qed.

Lemma encode_truthy (bs : list byte) :
  bs <> [] -> Js.truthy (Base64.encode bs) = true.
Proof.
  destruct bs as [|a [|b [|c r]]]; intros H.
  - contradiction.
  - rewrite encode_one.
    destruct (Base64.group3 a Base64.zero Base64.zero) as [[[w x] y] z].
    reflexivity.
  - rewrite encode_two.
    destruct (Base64.group3 a b Base64.zero) as [[[w x] y] z].
    reflexivity.
  - rewrite encode_three.
    destruct (Base64.group3 a b c) as [[[w x] y] z].
    reflexivity.
Qed.

Lemma split_lacks (c : ascii) (s : string) :
  Js.lacks c s = true -> Js.split c s = [s].
Proof.
  induction s as [|d r IH]; [reflexivity|].
  cbn [Js.lacks Js.split]. intros H.
  apply andb_true_iff in H as [Hd Hr].
  apply negb_true_iff in Hd. rewrite Hd, (IH Hr). reflexivity.
Qed.

Lemma split_at_first (c : ascii) (p r : string) :
  Js.lacks c p = true ->
  Js.split c (p ++ String c r) = p :: Js.split c r.
Proof.
  induction p as [|d p IH]; intros H.
  - cbn [append Js.split]. rewrite Ascii.eqb_refl. reflexivity.
  - cbn [Js.lacks] in H. apply andb_true_iff in H as [Hd Hp].
    apply negb_true_iff in Hd.
    cbn [append Js.split]. rewrite Hd, (IH Hp). reflexivity.
Qed.

Lemma lacks_append (c : ascii) (a b : string) :
  Js.lacks c (a ++ b) = (Js.lacks c a && Js.lacks c b)%bool.
Proof.
  induction a as [|d a IH]; [reflexivity|].
  cbn [append Js.lacks]. rewrite IH. apply andb_assoc.
Qed.

Lemma append_assoc (a b c : string) : (a ++ b) ++ c = a ++ (b ++ c).
Proof. induction a as [|d a IH]; simpl; [reflexivity | now rewrite IH]. Qed.

(** The segment after the first comma of what [readAsDataURL] returns is
    the base64 text of the content, when the declared type has no comma. *)
Lemma readAsDataURL_payload (f : File) :
  Js.lacks ","%char (type f) = true ->
  Js.index (Js.split ","%char (readAsDataURL f)) 1
  = Some (Base64.encode (bytes f)).
Proof.
  intros Hty. unfold readAsDataURL.
  set (t := match type f with
            | EmptyString => "application/octet-stream"
            | String _ _ => type f
            end).
  assert (Ht : Js.lacks ","%char t = true).
  { subst t. destruct (type f); [reflexivity | exact Hty]. }
  clearbody t.
  change (";base64," ++ Base64.encode (bytes f))
    with (";base64" ++ String ","%char (Base64.encode (bytes f))).
  rewrite <- !append_assoc.
  rewrite split_at_first.
  - rewrite (split_lacks _ _ (encode_lacks_comma (bytes f))). reflexivity.
  - rewrite !lacks_append, Ht. reflexivity.
Qed.

(** C8, as the code has it: for a file with content and an accepted
    declared type free of commas, the asset made by [handleFileChange],
    used as the source image, reaches [changePose] with the base64 text of
    the content as payload (from which exactly the content is decoded) and
    the declared type as media type; used as a reference image it is
    handed over in the same form. *)
Theorem C8_round_trip_nonempty (f : File) (img : ImageFile) (s : State) :
  handleFileChange (Some f) = Some img ->
  Js.lacks ","%char (type f) = true ->
  bytes f <> [] ->
  originalImage s = Some img ->
  nothingToChange s = false ->
  (exists s1 call,
      handleGeneratePose s = Awaiting s1 call
      /\ arg_base64Data call = Base64.encode (bytes f)
      /\ Base64.decode (arg_base64Data call) = Some (bytes f)
      /\ arg_mimeType call = type f)
  /\ referenceData (Some img) = Js.Str (Base64.encode (bytes f))
  /\ referenceMimeType (Some img) = Js.Str (type f).
Proof.
  intros Hup Hty Hne Ho Hn.
  unfold handleFileChange in Hup.
  destruct (Js.startsWith (type f) "image/"); [|discriminate].
  injection Hup as <-.
  pose proof (readAsDataURL_payload f Hty) as Hpay.
  split; [|split].
  - eexists. eexists. split.
    + apply (handleGeneratePose_accepts s _ (Base64.encode (bytes f)) Ho Hn).
      * exact Hpay.
      * apply encode_truthy. exact Hne.
    + cbn [arg_base64Data arg_mimeType mimeType].
      split; [reflexivity|]. split; [apply decode_encode | reflexivity].
  - unfold referenceData. cbn [dataUrl]. rewrite Hpay. reflexivity.
  - reflexivity.
Qed.

Lemma C8_witness :
  exists s1 call,
    handleGeneratePose (submission (handleFileChange (Some man)) None None "wave" "" "")
    = Awaiting s1 call
    /\ arg_base64Data call = "TWFu"
    /\ Base64.decode (arg_base64Data call) = Some [Byte.x4d; Byte.x61; Byte.x6e]
    /\ arg_mimeType call = "image/png".
Proof.
  refine (proj1 (C8_round_trip_nonempty man
            {| dataUrl := "data:image/png;base64,TWFu"; mimeType := "image/png" |}
            (submission (handleFileChange (Some man)) None None "wave" "" "")
            eq_refl eq_refl _ eq_refl eq_refl)).
  discriminate.
Defined.

(** C8, counterexample: a zero-byte PNG file is accepted by the uploader,
    but used as the source image its wire form is refused: the handler ends
    with "Invalid image data URL." and hands nothing to [changePose]. *)
Lemma C8_empty_file_refused :
  bytes emptyPng = []
  /\ handleFileChange (Some emptyPng) = Some emptyPngAsset
  /\ originalImage emptySource = Some emptyPngAsset
  /\ exists s',
       handleGeneratePose emptySource = Returned s'
       /\ error s' = Some "Failed to generate new pose. Invalid image data URL.".
Proof.
  split; [reflexivity|]. split; [reflexivity|]. split; [reflexivity|].
  eexists. split; reflexivity.
Qed.

(** ** One call at a time, and never a result beside an error *)

Lemma invariant_start : invariant start.
Proof.
  unfold invariant, resultExcludesError. cbn.
  repeat split; auto; intros H; contradiction.
Qed.

Lemma whenb_some (b : bool) (w w' : World) :
  whenb b w = Some w' -> b = true /\ w' = w.
Proof. destruct b; cbn; intros H; [injection H as <-; auto | discriminate]. Qed.

(** An enabled button means: not loading, a source image, something to
    change. *)
Lemma enabled_button (s : State) :
  isGenerationDisabled s = false ->
  isLoading s = false /\ (exists img, originalImage s = Some img)
  /\ nothingToChange s = false.
Proof.
  unfold isGenerationDisabled. intros H.
  apply orb_false_iff in H as [H Hn]. apply orb_false_iff in H as [Hl Ho].
  repeat split; try assumption.
  destruct (originalImage s) as [img|]; [eexists; reflexivity | discriminate].
Qed.

(** Closes the parts of [invariant] once the fields are computed. *)
Ltac close_invariant :=
  unfold invariant, resultExcludesError; cbn;
  repeat split; intros;
  first [ assumption | discriminate | contradiction | congruence
        | cbn; lia | tauto | auto ].

Lemma step_preserves (w w' : World) (e : Event) :
  invariant w -> step w e = Some w' -> invariant w'.
Proof.
  intros (Hlen & Hpend & Hres & Hfetch) Hstep.
  unfold resultExcludesError in Hres.
  destruct e; cbn [step] in Hstep.
  - (* FetchFailed *)
    destruct (load w) eqn:Hl; try discriminate. injection Hstep as <-.
    destruct (Hfetch eq_refl) as (_ & _ & Hin & Hg).
    close_invariant.
  - (* FetchDone *)
    destruct (load w) eqn:Hl; try discriminate. injection Hstep as <-.
    destruct (Hfetch eq_refl) as (_ & _ & Hin & Hg).
    close_invariant.
  - (* ReaderEnded *)
    destruct (load w) eqn:Hl; try discriminate. injection Hstep as <-.
    close_invariant.
  - (* SourceChosen *)
    apply whenb_some in Hstep as [Hvis ->].
    assert (Hnf : load w <> Fetching).
    { intros Hf. destruct (Hfetch Hf) as (Hl & Ho & _ & _).
      rewrite Hl, Ho in Hvis. discriminate. }
    destruct (handleFileChange file) as [img|]; close_invariant.
  - (* ClothingChosen *)
    destruct (handleFileChange file) as [img|]; injection Hstep as <-;
      close_invariant.
  - (* ClothingRemoved *)
    apply whenb_some in Hstep as [_ ->]. close_invariant.
  - (* BackgroundChosen *)
    destruct (handleFileChange file) as [img|]; injection Hstep as <-;
      close_invariant.
  - (* BackgroundRemoved *)
    apply whenb_some in Hstep as [_ ->]. close_invariant.
  - (* PoseTyped *)
    apply whenb_some in Hstep as [_ ->]. close_invariant.
  - (* ClothingTyped *)
    apply whenb_some in Hstep as [_ ->]. close_invariant.
  - (* BackgroundTyped *)
    apply whenb_some in Hstep as [_ ->]. close_invariant.
  - (* PreserveToggled *)
    apply whenb_some in Hstep as [_ ->]. close_invariant.
  - (* GenerateClicked *)
    apply whenb_some in Hstep as [Hen ->].
    apply negb_true_iff, enabled_button in Hen as (Hl & [img Ho] & Hn).
    assert (Hin : inflight w = []).
    { destruct (inflight w) as [|c l]; [reflexivity|].
      destruct Hpend as (Hl' & _); [discriminate|]. congruence. }
    assert (Hnf : load w <> Fetching).
    { intros Hf. destruct (Hfetch Hf) as (_ & Ho' & _). congruence. }
    unfold invokeGenerate, handleGeneratePose. rewrite Ho, Hn.
    destruct (Js.index (Js.split ","%char (dataUrl img)) 1) as [data|];
      [destruct (Js.truthy data)|];
      unfold invariant, resultExcludesError; cbn; rewrite Hin;
      close_invariant.
  - (* CallSettled *)
    apply whenb_some in Hstep as [Hi ->].
    apply Nat.ltb_lt in Hi.
    destruct (inflight w) as [|c l] eqn:Hin; [cbn in Hi; lia|].
    destruct l as [|c' l]; [|cbn in Hlen; lia].
    assert (i = 0) by (cbn in Hi; lia). subst i.
    destruct Hpend as (Hl & Hg & He); [discriminate|].
    assert (Hnf : load w <> Fetching).
    { intros Hf. destruct (Hfetch Hf) as (_ & _ & Hin' & _). discriminate. }
    destruct r as [v|err]; close_invariant.
Qed.

Lemma reachable_invariant (w : World) : reachable w -> invariant w.
Proof.
  induction 1 as [|w e w' _ IH Hstep].
  - exact invariant_start.
  - exact (step_preserves w w' e IH Hstep).
Qed.

Lemma run_reachable (es : list Event) (w w' : World) :
  reachable w -> run w es = Some w' -> reachable w'.
Proof.
  revert w. induction es as [|e es IH]; intros w Hw Hrun; cbn in Hrun.
  - injection Hrun as <-. exact Hw.
  - destruct (step w e) as [w1|] eqn:Hstep; [|discriminate].
    apply (IH w1); [|exact Hrun].
    exact (reachable_step w e w1 Hw Hstep).
Qed.

Example pending_reachable : reachable pending.
Proof. exact (run_reachable toPending start pending reachable_start eq_refl). Qed.

Example succeeded_reachable : reachable succeeded.
Proof. exact (run_reachable toSucceeded start succeeded reachable_start eq_refl). Qed.

(** While a call is pending the button is disabled. *)
Lemma pending_disables_button (w : World) :
  invariant w -> inflight w <> [] -> isGenerationDisabled (ui w) = true.
Proof.
  intros (_ & Hpend & _) Hin. destruct (Hpend Hin) as (Hl & _).
  unfold isGenerationDisabled. rewrite Hl. reflexivity.
Qed.

(** C1, as the code has it: in every world the application reaches through
    its rendered controls at most one call of [changePose] is pending;
    while one is pending the loading flag is up and the button is
    disabled, so that a click makes no call and changes nothing; and when
    the pending call settles, no call is left pending and none was added. *)
Theorem C1_one_call_through_the_button (w : World) :
  reachable w ->
  List.length (inflight w) <= 1
  /\ (inflight w <> [] ->
      isLoading (ui w) = true
      /\ isGenerationDisabled (ui w) = true
      /\ clickGenerate w = w
      /\ step w GenerateClicked = None
      /\ forall i r w', step w (CallSettled i r) = Some w' ->
           ui w' = resume r (ui w) /\ inflight w' = [] /\ issued w' = issued w).
Proof.
  intros Hr. pose proof (reachable_invariant w Hr) as Hinv.
  pose proof Hinv as (Hlen & Hpend & _ & _).
  split; [exact Hlen|]. intros Hin.
  pose proof (pending_disables_button w Hinv Hin) as Hdis.
  destruct (Hpend Hin) as (Hl & _).
  split; [exact Hl|]. split; [exact Hdis|].
  split; [unfold clickGenerate; rewrite Hdis; reflexivity|].
  split; [cbn [step]; rewrite Hdis; reflexivity|].
  intros i r w' Hstep. cbn [step] in Hstep.
  apply whenb_some in Hstep as [Hi ->]. apply Nat.ltb_lt in Hi.
  destruct (inflight w) as [|c [|c' l]] eqn:E; cbn in Hi, Hlen; try lia.
  assert (i = 0) by lia. subst i. cbn. repeat split; reflexivity.
Qed.

Lemma C1_witness :
  reachable pending
  /\ List.length (inflight pending) <= 1
  /\ (inflight pending <> [] ->
      isLoading (ui pending) = true
      /\ isGenerationDisabled (ui pending) = true
      /\ clickGenerate pending = pending
      /\ step pending GenerateClicked = None
      /\ forall i r w', step pending (CallSettled i r) = Some w' ->
           ui w' = resume r (ui pending) /\ inflight w' = []
           /\ issued w' = issued pending).
Proof.
  split.
  - exact (run_reachable toPending start pending reachable_start eq_refl).
  - apply (C1_one_call_through_the_button pending).
    exact (run_reachable toPending start pending reachable_start eq_refl).
Defined.

(** C1, counterexample: with one call pending, [handleGeneratePose]
    invoked again (not through the disabled button) calls [changePose] a
    second time, and both outcomes are applied, the later one replacing the
    earlier. *)
Lemma C1_second_call_made :
  List.length (inflight pending) = 1
  /\ isLoading (ui pending) = true
  /\ List.length (inflight (invokeGenerate pending)) = 2
  /\ List.length (issued (invokeGenerate pending)) = 2
  /\ generatedImage
       (resume (Resolved "DDDD")
          (resume (Resolved "CCCC") (ui (invokeGenerate pending))))
     = Some "DDDD".
Proof. repeat split; reflexivity. Qed.

(** C10: in every world the application reaches, a result and an error are
    not shown together, and every step keeps it so: a click on the button
    leaves no result, and no error either when it starts a call; a failed
    call sets an error with no result; a successful call sets the result
    with no error; a newly uploaded source image clears both. *)
Theorem C10_result_excludes_error (w : World) :
  reachable w ->
  resultExcludesError (ui w)
  /\ (forall e w', step w e = Some w' -> resultExcludesError (ui w'))
  /\ (forall w', step w GenerateClicked = Some w' ->
        generatedImage (ui w') = None
        /\ (inflight w' <> [] -> error (ui w') = None))
  /\ (forall i e w', step w (CallSettled i (Rejected e)) = Some w' ->
        generatedImage (ui w') = None /\ error (ui w') <> None)
  /\ (forall i v w', step w (CallSettled i (Resolved v)) = Some w' ->
        generatedImage (ui w') = Some v /\ error (ui w') = None)
  /\ (forall f img w',
        handleFileChange f = Some img -> step w (SourceChosen f) = Some w' ->
        originalImage (ui w') = Some img
        /\ generatedImage (ui w') = None /\ error (ui w') = None).
Proof.
  intros Hr. pose proof (reachable_invariant w Hr) as Hinv.
  pose proof Hinv as (Hlen & Hpend & Hres & _).
  assert (Hnext : forall e w', step w e = Some w' -> invariant w').
  { intros e w' Hstep. exact (step_preserves w w' e Hinv Hstep). }
  split; [exact Hres|].
  split; [intros e w' Hstep; apply (Hnext e w' Hstep)|].
  split; [|split; [|split]].
  - intros w' Hstep.
    pose proof (Hnext _ _ Hstep) as (_ & Hpend' & _ & _).
    split; [|intros Hin; apply (Hpend' Hin)].
    cbn [step] in Hstep. apply whenb_some in Hstep as [Hen ->].
    apply negb_true_iff, enabled_button in Hen as (_ & [img Ho] & Hn).
    unfold invokeGenerate, handleGeneratePose. rewrite Ho, Hn.
    destruct (Js.index (Js.split ","%char (dataUrl img)) 1) as [data|];
      [destruct (Js.truthy data)|]; reflexivity.
  - intros i e w' Hstep. cbn [step] in Hstep.
    apply whenb_some in Hstep as [Hi ->]. apply Nat.ltb_lt in Hi.
    destruct Hpend as (_ & Hg & _).
    { intros E. rewrite E in Hi. cbn in Hi. lia. }
    cbn. split; [exact Hg | discriminate].
  - intros i v w' Hstep. cbn [step] in Hstep.
    apply whenb_some in Hstep as [Hi ->]. apply Nat.ltb_lt in Hi.
    destruct Hpend as (_ & _ & He).
    { intros E. rewrite E in Hi. cbn in Hi. lia. }
    cbn. split; [reflexivity | exact He].
  - intros f img w' Hup Hstep. cbn [step] in Hstep. rewrite Hup in Hstep.
    apply whenb_some in Hstep as [_ ->]. cbn. repeat split; reflexivity.
Qed.

Lemma C10_witness :
  reachable succeeded
  /\ generatedImage (ui succeeded) = Some "CCCC"
  /\ resultExcludesError (ui succeeded).
Proof.
  split; [|split; [reflexivity|]].
  - exact (run_reachable toSucceeded start succeeded reachable_start eq_refl).
  - apply (C10_result_excludes_error succeeded).
    exact (run_reachable toSucceeded start succeeded reachable_start eq_refl).
Defined.


(** ** The counterexamples, in the running application *)

Example red_dress_in_the_application :
  exists w call,
    run start toRedDress = Some w
    /\ issued w = [call]
    /\ arg_clothingData call = Js.Str "/9j/"
    /\ arg_clothingPrompt call = "red dress".
Proof. eexists; eexists. repeat split; reflexivity. Qed.

Example empty_source_in_the_application :
  exists w,
    run start toEmptySource = Some w
    /\ issued w = []
    /\ error (ui w) = Some "Failed to generate new pose. Invalid image data URL."
    /\ isLoading (ui w) = false.
Proof. eexists. repeat split; reflexivity. Qed.

(** * Further properties of the code *)

Import View.

(** ** The guard and white space *)

Lemma blank_trimStart (s : string) : blank (Js.trimStart s) = blank s.
Proof.
  induction s as [|c r IH]; [reflexivity|].
  cbn [Js.trimStart blank].
  destruct (Js.is_white_space c) eqn:Hc.
  - exact IH.
  - cbn [blank]. rewrite Hc. reflexivity.
Qed.

Lemma trimEnd_truthy (s : string) : Js.truthy (Js.trimEnd s) = negb (blank s).
Proof.
  induction s as [|c r IH]; [reflexivity|].
  cbn [Js.trimEnd blank].
  destruct (Js.trimEnd r) as [|d r'].
  - cbn [Js.truthy] in IH. apply (f_equal negb) in IH.
    rewrite negb_involutive in IH. cbn [negb] in IH. rewrite <- IH.
    destruct (Js.is_white_space c); reflexivity.
  - cbn [Js.truthy] in IH |- *. apply (f_equal negb) in IH.
    rewrite negb_involutive in IH. cbn [negb] in IH. rewrite <- IH.
    rewrite andb_false_r. reflexivity.
Qed.

(** A trimmed text is falsy exactly when the text is all white space. *)
Lemma trim_truthy (s : string) : Js.truthy (Js.trim s) = negb (blank s).
Proof. unfold Js.trim. rewrite trimEnd_truthy, blank_trimStart. reflexivity. Qed.

Lemma nothingToChange_blank (s : State) :
  nothingToChange s
  = (blank (prompt s) && blank (clothingPrompt s) && blank (backgroundPrompt s)
     && absent (backgroundImage s) && absent (clothingImage s))%bool.
Proof.
  unfold nothingToChange. rewrite !trim_truthy, !negb_involutive. reflexivity.
Qed.

(** With a source image and something to change the handler goes on: it
    never ends with the validation message. *)
Lemma passing_guard_not_rejected (s : State) (original : ImageFile) :
  originalImage s = Some original ->
  nothingToChange s = false ->
  handleGeneratePose s <> Returned (setError (Some validationMessage) s).
Proof.
  intros Ho Hn H. unfold handleGeneratePose in H. rewrite Ho, Hn in H.
  destruct (Js.index (Js.split ","%char (dataUrl original)) 1) as [data|];
    [destruct (Js.truthy data)|]; try discriminate H;
    injection H as H; apply (f_equal error) in H; discriminate H.
Qed.

(** X1: on a submission with a source image, [handleGeneratePose] ends
    with the validation message, making no call, exactly when each of the
    three texts is empty or all white space (of the 8-bit code units: TAB,
    LF, VT, FF, CR, SPACE, NBSP) and neither reference image is set; in
    every other case it goes on to clear the cells. *)
Theorem X1_rejected_iff_all_blank (s : State) :
  (originalImage s <> None
   /\ handleGeneratePose s = Returned (setError (Some validationMessage) s))
  <-> (originalImage s <> None
       /\ blank (prompt s) = true
       /\ blank (clothingPrompt s) = true
       /\ blank (backgroundPrompt s) = true
       /\ backgroundImage s = None
       /\ clothingImage s = None).
Proof.
  split.
  - intros (Ho & Hrun). split; [exact Ho|].
    destruct (originalImage s) as [original|] eqn:E; [|contradiction].
    destruct (nothingToChange s) eqn:Hn.
    + rewrite nothingToChange_blank in Hn.
      apply andb_true_iff in Hn as [Hn Hc]. apply andb_true_iff in Hn as [Hn Hb].
      apply andb_true_iff in Hn as [Hn Hbp]. apply andb_true_iff in Hn as [Hp Hcp].
      destruct (backgroundImage s); [discriminate|].
      destruct (clothingImage s); [discriminate|].
      repeat split; assumption.
    + exfalso. exact (passing_guard_not_rejected s original E Hn Hrun).
  - intros (Ho & Hp & Hcp & Hbp & Hb & Hc). split; [exact Ho|].
    destruct (originalImage s) as [original|] eqn:E; [|contradiction].
    apply (guard_rejects s NoModifierSpecified).
    unfold guard. rewrite E, nothingToChange_blank, Hp, Hcp, Hbp, Hb, Hc.
    reflexivity.
Qed.

(** ** The handler and the lifecycle cells *)

Lemma nothingToChange_sameInputs (s t : State) :
  sameInputs s t -> nothingToChange s = nothingToChange t.
Proof.
  intros (_ & Hb & Hc & Hp & Hcp & Hbp & _). unfold nothingToChange.
  rewrite Hb, Hc, Hp, Hcp, Hbp. reflexivity.
Qed.

(** What the handler decides and the request it builds depend on the
    inputs alone. *)
Lemma requestOf_sameInputs (s t : State) :
  sameInputs s t ->
  requestOf (handleGeneratePose s) = requestOf (handleGeneratePose t).
Proof.
  intros Hin. pose proof (nothingToChange_sameInputs s t Hin) as Hn.
  destruct Hin as (Ho & Hb & Hc & Hp & Hcp & Hbp & Hf).
  unfold handleGeneratePose. rewrite Ho, Hn.
  destruct (originalImage t) as [original|]; [|reflexivity].
  destruct (nothingToChange t); [reflexivity|].
  destruct (Js.index (Js.split ","%char (dataUrl original)) 1) as [data|];
    [|reflexivity].
  destruct (Js.truthy data); [|reflexivity].
  cbn [requestOf]. rewrite Hb, Hc, Hp, Hcp, Hbp, Hf. reflexivity.
Qed.

(** X2: whether [handleGeneratePose] calls [changePose], and with which
    request, depends only on the inputs of the submission: not on the
    loading flag, not on a result or an error being shown.  In particular
    raising the loading flag changes nothing of it. *)
Theorem X2_request_ignores_lifecycle (s t : State) :
  sameInputs s t ->
  requestOf (handleGeneratePose s) = requestOf (handleGeneratePose t)
  /\ forall b e g,
       requestOf (handleGeneratePose (setIsLoading b (setError e (setGeneratedImage g s))))
       = requestOf (handleGeneratePose t).
Proof.
  intros Hin. split; [exact (requestOf_sameInputs s t Hin)|].
  intros b e g. apply requestOf_sameInputs.
  destruct Hin as (Ho & Hb & Hc & Hp & Hcp & Hbp & Hf).
  repeat split; cbn; assumption.
Qed.

Lemma X2_witness :
  sameInputs (ui pending) (ui ready)
  /\ requestOf (handleGeneratePose (ui pending))
     = requestOf (handleGeneratePose (ui ready)).
Proof.
  assert (H : sameInputs (ui pending) (ui ready)) by (repeat split; reflexivity).
  split; [exact H|].
  exact (proj1 (X2_request_ignores_lifecycle (ui pending) (ui ready) H)).
Defined.

(** X3: a rejection clears nothing.  Invoked on a state that shows a
    result and whose inputs fail the guard, [handleGeneratePose] sets the
    validation message and leaves the result, the loading flag and the
    inputs as they are: result and error are then both present. *)
Theorem X3_rejection_keeps_result (s : State) (r : Rejection) (image : string) :
  guard s = Some r ->
  generatedImage s = Some image ->
  exists s',
    handleGeneratePose s = Returned s'
    /\ generatedImage s' = Some image
    /\ error s' = Some validationMessage
    /\ isLoading s' = isLoading s
    /\ sameInputs s' s
    /\ ~ resultExcludesError s'.
Proof.
  intros Hg Himg. exists (setError (Some validationMessage) s).
  split; [exact (guard_rejects s r Hg)|].
  split; [exact Himg|]. split; [reflexivity|]. split; [reflexivity|].
  split; [repeat split; reflexivity|].
  unfold resultExcludesError. cbn. rewrite Himg. intros H.
  assert (Hne : Some image <> None) by discriminate.
  specialize (H Hne). discriminate.
Qed.

Lemma X3_witness :
  guard staleResult = Some NoModifierSpecified
  /\ exists s',
       handleGeneratePose staleResult = Returned s'
       /\ generatedImage s' = Some "CCCC"
       /\ error s' = Some validationMessage
       /\ isLoading s' = isLoading staleResult
       /\ sameInputs s' staleResult
       /\ ~ resultExcludesError s'.
Proof.
  split; [reflexivity|].
  exact (X3_rejection_keeps_result staleResult NoModifierSpecified "CCCC"
           eq_refl eq_refl).
Defined.

(** X4: a source image whose URL has no text after its first comma (or no
    comma) stops the attempt before [changePose]: no call is added, the
    error reads "Failed to generate new pose. Invalid image data URL.",
    the loading flag is down again and any earlier result is gone. *)
Theorem X4_source_without_payload (w : World) (original : ImageFile) :
  originalImage (ui w) = Some original ->
  nothingToChange (ui w) = false ->
  Js.truthy_opt (Js.index (Js.split ","%char (dataUrl original)) 1) = false ->
  issued (invokeGenerate w) = issued w
  /\ inflight (invokeGenerate w) = inflight w
  /\ error (ui (invokeGenerate w))
     = Some "Failed to generate new pose. Invalid image data URL."
  /\ isLoading (ui (invokeGenerate w)) = false
  /\ generatedImage (ui (invokeGenerate w)) = None.
Proof.
  intros Ho Hn Hd. unfold invokeGenerate, handleGeneratePose. rewrite Ho, Hn.
  destruct (Js.index (Js.split ","%char (dataUrl original)) 1) as [data|].
  - cbn [Js.truthy_opt] in Hd. rewrite Hd. repeat split; reflexivity.
  - repeat split; reflexivity.
Qed.

Lemma X4_witness :
  originalImage (ui emptySourceWorld) = Some emptyPngAsset
  /\ issued (invokeGenerate emptySourceWorld) = issued emptySourceWorld
  /\ inflight (invokeGenerate emptySourceWorld) = inflight emptySourceWorld
  /\ error (ui (invokeGenerate emptySourceWorld))
     = Some "Failed to generate new pose. Invalid image data URL."
  /\ isLoading (ui (invokeGenerate emptySourceWorld)) = false
  /\ generatedImage (ui (invokeGenerate emptySourceWorld)) = None.
Proof.
  split; [reflexivity|].
  exact (X4_source_without_payload emptySourceWorld emptyPngAsset
           eq_refl eq_refl eq_refl).
Defined.

(** ** What every request holds *)

Lemma isNull_referenceData (img : option ImageFile) :
  isNull (referenceData img) = absent img.
Proof.
  destruct img as [i|]; [|reflexivity]. unfold referenceData.
  destruct (Js.index (Js.split ","%char (dataUrl i)) 1); reflexivity.
Qed.

Lemma awaiting_worthSending (s s1 : State) (call : ChangePoseArgs) :
  handleGeneratePose s = Awaiting s1 call -> worthSending call = true.
Proof.
  intros H.
  destruct (handleGeneratePose_awaiting s s1 call H)
    as (original & data & _ & Hn & _ & Ht & _ & ->).
  unfold worthSending.
  cbn [arg_base64Data arg_prompt arg_clothingPrompt arg_backgroundPrompt
         arg_backgroundData arg_clothingData].
  rewrite Ht, !isNull_referenceData.
  unfold nothingToChange in Hn.
  destruct (Js.truthy (Js.trim (prompt s))),
    (Js.truthy (Js.trim (clothingPrompt s))),
    (Js.truthy (Js.trim (backgroundPrompt s))),
    (absent (backgroundImage s)), (absent (clothingImage s));
    cbn in Hn |- *; first [reflexivity | discriminate].
Qed.

(** One step adds at most one request to the log, at its end, and only a
    click does; what it adds is what is then pending. *)
Lemma step_issued (w w' : World) (e : Event) :
  step w e = Some w' ->
  issued w' = issued w
  \/ exists s1 call,
       e = GenerateClicked
       /\ handleGeneratePose (ui w) = Awaiting s1 call
       /\ issued w' = (issued w ++ [call])%list
       /\ inflight w' = (inflight w ++ [call])%list.
Proof.
  intros Hstep. destruct e; cbn [step] in Hstep;
    try (destruct (load w); try discriminate; injection Hstep as <-; left; reflexivity);
    try (destruct (handleFileChange file); injection Hstep as <-; left; reflexivity);
    try (apply whenb_some in Hstep as [_ ->]; left; reflexivity).
  - apply whenb_some in Hstep as [_ ->].
    destruct (handleFileChange file); left; reflexivity.
  - apply whenb_some in Hstep as [_ ->]. unfold invokeGenerate.
    destruct (handleGeneratePose (ui w)) as [s'|s1 call] eqn:Hh.
    + left. reflexivity.
    + right. exists s1, call. repeat split; reflexivity.
Qed.

Lemma reachable_worthSending (w : World) :
  reachable w -> Forall (fun call => worthSending call = true) (issued w).
Proof.
  induction 1 as [|w e w' _ IH Hstep]; [constructor|].
  destruct (step_issued w w' e Hstep) as [-> | (s1 & call & _ & Hh & -> & _)];
    [exact IH|].
  apply Forall_app. split; [exact IH|].
  constructor; [|constructor]. exact (awaiting_worthSending _ _ _ Hh).
Qed.

(** X5: in the running application [changePose] is never called with an
    empty source payload, nor with nothing to act on: every request made
    so far has a non-empty source payload and a non-blank text or a
    reference image. *)
Theorem X5_requests_worth_sending (w : World) (call : ChangePoseArgs) :
  reachable w ->
  In call (issued w) ->
  Js.truthy (arg_base64Data call) = true
  /\ (blank (arg_prompt call) = false
      \/ blank (arg_clothingPrompt call) = false
      \/ blank (arg_backgroundPrompt call) = false
      \/ arg_backgroundData call <> Js.Null
      \/ arg_clothingData call <> Js.Null).
Proof.
  intros Hr Hin.
  pose proof (proj1 (Forall_forall _ _) (reachable_worthSending w Hr) call Hin) as H.
  unfold worthSending in H. rewrite !trim_truthy in H.
  apply andb_true_iff in H as [Hd Hm]. split; [exact Hd|].
  destruct (blank (arg_prompt call)); [|left; reflexivity].
  destruct (blank (arg_clothingPrompt call)); [|right; left; reflexivity].
  destruct (blank (arg_backgroundPrompt call)); [|right; right; left; reflexivity].
  destruct (arg_backgroundData call);
    try (right; right; right; left; discriminate).
  destruct (arg_clothingData call); right; right; right; right; discriminate.
Qed.

Lemma X5_witness :
  reachable pending
  /\ (exists call, In call (issued pending)
        /\ Js.truthy (arg_base64Data call) = true
        /\ (blank (arg_prompt call) = false
            \/ blank (arg_clothingPrompt call) = false
            \/ blank (arg_backgroundPrompt call) = false
            \/ arg_backgroundData call <> Js.Null
            \/ arg_clothingData call <> Js.Null)).
Proof.
  assert (Hr : reachable pending)
    by exact (run_reachable toPending start pending reachable_start eq_refl).
  split; [exact Hr|].
  eexists. split; [left; reflexivity|].
  refine (X5_requests_worth_sending pending _ Hr _). left. reflexivity.
Defined.


(** ** The loading flag and the error text over time *)

(** Closes the goals about the cells of a state after one step. *)
Ltac close_cells :=
  cbn; repeat split; intros;
  first [ assumption | reflexivity | discriminate | contradiction
        | congruence | tauto | eauto ].

Lemma step_lifecycle (w w' : World) (e : Event) :
  invariant w ->
  step w e = Some w' ->
  (isLoading (ui w) = awaiting w
   /\ (isLoading (ui w) = true -> error (ui w) = None)
   /\ (error (ui w) = None \/ error (ui w) = Some loadFailureMessage
       \/ exists m, error (ui w) = Some ("Failed to generate new pose. " ++ m))) ->
  isLoading (ui w') = awaiting w'
  /\ (isLoading (ui w') = true -> error (ui w') = None)
  /\ (error (ui w') = None \/ error (ui w') = Some loadFailureMessage
      \/ exists m, error (ui w') = Some ("Failed to generate new pose. " ++ m)).
Proof.
  intros (Hlen & Hpend & _ & Hfetch) Hstep (Hflag & Hquiet & Hshape).
  unfold awaiting in *.
  destruct e; cbn [step] in Hstep.
  - (* FetchFailed *)
    destruct (load w) eqn:Hl; try discriminate. injection Hstep as <-.
    destruct (Hfetch eq_refl) as (_ & _ & Hin & _).
    cbn. rewrite Hin. repeat split; [discriminate|]. right; left; reflexivity.
  - (* FetchDone *)
    destruct (load w) eqn:Hl; try discriminate. injection Hstep as <-.
    destruct (Hfetch eq_refl) as (_ & _ & Hin & _).
    cbn. rewrite Hin. repeat split; [discriminate | exact Hshape].
  - (* ReaderEnded *)
    destruct (load w) eqn:Hl; try discriminate. injection Hstep as <-.
    close_cells.
  - (* SourceChosen *)
    apply whenb_some in Hstep as [_ ->].
    destruct (handleFileChange file) as [img|]; close_cells.
  - destruct (handleFileChange file) as [img|]; injection Hstep as <-; close_cells.
  - apply whenb_some in Hstep as [_ ->]. close_cells.
  - destruct (handleFileChange file) as [img|]; injection Hstep as <-; close_cells.
  - apply whenb_some in Hstep as [_ ->]. close_cells.
  - apply whenb_some in Hstep as [_ ->]. close_cells.
  - apply whenb_some in Hstep as [_ ->]. close_cells.
  - apply whenb_some in Hstep as [_ ->]. close_cells.
  - apply whenb_some in Hstep as [_ ->]. close_cells.
  - (* GenerateClicked *)
    apply whenb_some in Hstep as [Hen ->].
    apply negb_true_iff, enabled_button in Hen as (Hl & [img Ho] & Hn).
    rewrite Hl in Hflag. symmetry in Hflag.
    apply orb_false_iff in Hflag as [Hnf Hin].
    apply negb_false_iff in Hin.
    destruct (inflight w) as [|c l] eqn:Ein; [|discriminate].
    unfold invokeGenerate, handleGeneratePose. rewrite Ho, Hn.
    destruct (Js.index (Js.split ","%char (dataUrl img)) 1) as [data|];
      [destruct (Js.truthy data)|]; cbn; rewrite ?Ein, ?Hnf; cbn.
    + repeat split. left; reflexivity.
    + repeat split; [discriminate|]. right; right. eexists. reflexivity.
    + repeat split; [discriminate|]. right; right. eexists. reflexivity.
  - (* CallSettled *)
    apply whenb_some in Hstep as [Hi ->]. apply Nat.ltb_lt in Hi.
    destruct (inflight w) as [|c l] eqn:Ein; [cbn in Hi; lia|].
    destruct l as [|c' l]; [|cbn in Hlen; lia].
    assert (i = 0) by (cbn in Hi; lia). subst i.
    assert (Hnf : load w <> Fetching).
    { intros Hf. destruct (Hfetch Hf) as (_ & _ & Hin' & _). discriminate. }
    destruct r as [v|err]; cbn;
      (destruct (load w); [contradiction | |]); cbn; repeat split;
      try discriminate; try exact Hshape.
    all: right; right; eexists; reflexivity.
Qed.

Lemma reachable_lifecycle (w : World) :
  reachable w ->
  isLoading (ui w) = awaiting w
  /\ (isLoading (ui w) = true -> error (ui w) = None)
  /\ (error (ui w) = None \/ error (ui w) = Some loadFailureMessage
      \/ exists m, error (ui w) = Some ("Failed to generate new pose. " ++ m)).
Proof.
  induction 1 as [|w e w' Hr IH Hstep].
  - cbn. repeat split. left; reflexivity.
  - exact (step_lifecycle w w' e (reachable_invariant w Hr) Hstep IH).
Qed.

(** X7: in the running application the loading flag is up exactly while
    something is awaited, the fetch of the sample image or a call of
    [changePose]: it is never left up with nothing pending, and never down
    with a call pending; and while it is up no error is shown. *)
Theorem X7_loading_flag_tracks_awaiting (w : World) :
  reachable w ->
  (isLoading (ui w) = true <-> (load w = Fetching \/ inflight w <> []))
  /\ (isLoading (ui w) = true -> error (ui w) = None).
Proof.
  intros Hr. destruct (reachable_lifecycle w Hr) as (Hflag & Hquiet & _).
  split; [|exact Hquiet]. rewrite Hflag. unfold awaiting.
  destruct (load w), (inflight w); cbn; split; intros H;
    try reflexivity; try discriminate;
    try (left; reflexivity); try (right; discriminate).
  all: destruct H as [H|H]; [discriminate | contradiction].
Qed.

Lemma X7_witness :
  reachable pending
  /\ isLoading (ui pending) = true
  /\ inflight pending <> []
  /\ error (ui pending) = None.
Proof.
  assert (Hr : reachable pending)
    by exact (run_reachable toPending start pending reachable_start eq_refl).
  split; [exact Hr|]. split; [reflexivity|]. split; [discriminate|].
  exact (proj2 (X7_loading_flag_tracks_awaiting pending Hr) eq_refl).
Defined.

(** X8: the validation message of [handleGeneratePose] is never shown in
    the running application (the button is disabled whenever the guard
    would turn the submission down): the error is absent, or the message
    of the failed sample load, or "Failed to generate new pose. " followed
    by a detail. *)
Theorem X8_validation_message_never_shown (w : World) :
  reachable w ->
  error (ui w) <> Some validationMessage
  /\ (error (ui w) = None
      \/ error (ui w) = Some loadFailureMessage
      \/ exists detail,
           error (ui w) = Some ("Failed to generate new pose. " ++ detail)).
Proof.
  intros Hr. destruct (reachable_lifecycle w Hr) as (_ & _ & Hshape).
  split; [|exact Hshape].
  destruct Hshape as [-> | [-> | [m ->]]]; discriminate.
Qed.

Lemma X8_witness :
  reachable failedWorld
  /\ error (ui failedWorld) = Some "Failed to generate new pose. timeout"
  /\ error (ui failedWorld) <> Some validationMessage.
Proof.
  assert (Hr : reachable failedWorld)
    by exact (run_reachable toFailed start failedWorld reachable_start eq_refl).
  split; [exact Hr|]. split; [reflexivity|].
  exact (proj1 (X8_validation_message_never_shown failedWorld Hr)).
Defined.

(** X9: of the spinner, the generated image and the placeholder of the
    result area, and the error box, the running application shows exactly
    one at any time. *)
Theorem X9_exactly_one_display (w : World) :
  reachable w ->
  List.length (filter (fun b : bool => b) (shown (ui w))) = 1.
Proof.
  intros Hr.
  destruct (reachable_lifecycle w Hr) as (_ & Hquiet & _).
  destruct (reachable_invariant w Hr) as (_ & _ & Hres & _).
  unfold resultExcludesError in Hres.
  unfold shown, showsSpinner, showsResult, showsPlaceholder, showsError.
  destruct (generatedImage (ui w)) as [g|].
  - rewrite Hres by discriminate. cbn [Js.truthy_opt].
    destruct (Js.truthy g), (isLoading (ui w)) eqn:Hl; cbn; try reflexivity.
  - cbn [Js.truthy_opt]. destruct (isLoading (ui w)) eqn:Hl.
    + rewrite (Hquiet eq_refl). reflexivity.
    + destruct (Js.truthy_opt (error (ui w))); reflexivity.
Qed.

Lemma X9_witness :
  reachable succeeded
  /\ shown (ui succeeded) = [false; true; false; false]
  /\ List.length (filter (fun b : bool => b) (shown (ui succeeded))) = 1.
Proof.
  assert (Hr : reachable succeeded)
    by exact (run_reachable toSucceeded start succeeded reachable_start eq_refl).
  split; [exact Hr|]. split; [reflexivity|].
  exact (X9_exactly_one_display succeeded Hr).
Defined.

(** ** The source image and the inputs *)

Lemma invokeGenerate_sameInputs (w : World) :
  sameInputs (ui (invokeGenerate w)) (ui w).
Proof.
  unfold invokeGenerate, handleGeneratePose.
  destruct (originalImage (ui w)) as [original|];
    [|repeat split; reflexivity].
  destruct (nothingToChange (ui w)); [repeat split; reflexivity|].
  destruct (Js.index (Js.split ","%char (dataUrl original)) 1) as [data|];
    [destruct (Js.truthy data)|]; repeat split; reflexivity.
Qed.

(** No step takes the source image away. *)
Lemma step_keeps_source (w w' : World) (e : Event) :
  step w e = Some w' ->
  originalImage (ui w) <> None -> originalImage (ui w') <> None.
Proof.
  intros Hstep Ho. destruct e; cbn [step] in Hstep;
    try (destruct (load w); try discriminate; injection Hstep as <-;
         cbn; first [exact Ho | discriminate]);
    try (destruct (handleFileChange file); injection Hstep as <-; exact Ho);
    try (apply whenb_some in Hstep as [_ ->]; exact Ho).
  - apply whenb_some in Hstep as [_ ->].
    destruct (handleFileChange file); cbn; first [exact Ho | discriminate].
  - apply whenb_some in Hstep as [_ ->].
    destruct (invokeGenerate_sameInputs w) as (-> & _). exact Ho.
  - apply whenb_some in Hstep as [_ ->]. destruct r; exact Ho.
Qed.

(** X10: once there is a source image there always is one: whatever
    happens next (uploads, edits, clicks, calls settling), it can be
    replaced but is never removed. *)
Theorem X10_source_image_never_removed (es : list Event) (w w' : World) :
  run w es = Some w' ->
  originalImage (ui w) <> None ->
  originalImage (ui w') <> None.
Proof.
  revert w. induction es as [|e es IH]; intros w Hrun Ho; cbn in Hrun.
  - injection Hrun as <-. exact Ho.
  - destruct (step w e) as [w1|] eqn:Hstep; [|discriminate].
    exact (IH w1 Hrun (step_keeps_source w w1 e Hstep Ho)).
Qed.

Lemma X10_witness :
  originalImage (ui ready) <> None /\ originalImage (ui failedWorld) <> None.
Proof.
  assert (Ho : originalImage (ui ready) <> None) by discriminate.
  split; [exact Ho|].
  exact (X10_source_image_never_removed
           [GenerateClicked; CallSettled 0 (Rejected (Js.Error "timeout"))]
           ready failedWorld eq_refl Ho).
Defined.

Lemma step_untouched (w w' : World) (e : Event) :
  step w e = Some w' ->
  originalImage (ui w') = None ->
  (prompt (ui w) = "" /\ clothingPrompt (ui w) = ""
   /\ backgroundPrompt (ui w) = "" /\ preserveBodyShape (ui w) = true
   /\ generatedImage (ui w) = None /\ inflight w = [] /\ issued w = []) ->
  prompt (ui w') = "" /\ clothingPrompt (ui w') = ""
  /\ backgroundPrompt (ui w') = "" /\ preserveBodyShape (ui w') = true
  /\ generatedImage (ui w') = None /\ inflight w' = [] /\ issued w' = [].
Proof.
  intros Hstep Ho (Hp & Hc & Hb & Hf & Hg & Hin & Hiss).
  destruct e; cbn [step] in Hstep.
  - destruct (load w); try discriminate. injection Hstep as <-. close_cells.
  - destruct (load w); try discriminate. injection Hstep as <-. close_cells.
  - destruct (load w); try discriminate. injection Hstep as <-. discriminate.
  - apply whenb_some in Hstep as [_ ->].
    destruct (handleFileChange file); [discriminate | close_cells].
  - destruct (handleFileChange file); injection Hstep as <-; close_cells.
  - apply whenb_some in Hstep as [_ ->]. close_cells.
  - destruct (handleFileChange file); injection Hstep as <-; close_cells.
  - apply whenb_some in Hstep as [_ ->]. close_cells.
  - apply whenb_some in Hstep as [Hen ->]. cbn in Ho. rewrite Ho in Hen. discriminate.
  - apply whenb_some in Hstep as [Hen ->]. cbn in Ho. rewrite Ho in Hen. discriminate.
  - apply whenb_some in Hstep as [Hen ->]. cbn in Ho. rewrite Ho in Hen. discriminate.
  - apply whenb_some in Hstep as [Hen ->]. cbn in Ho. rewrite Ho in Hen. discriminate.
  - apply whenb_some in Hstep as [Hen ->].
    apply negb_true_iff, enabled_button in Hen as (_ & [img Hi] & _).
    destruct (invokeGenerate_sameInputs w) as (Hsame & _). congruence.
  - apply whenb_some in Hstep as [Hi ->]. apply Nat.ltb_lt in Hi.
    rewrite Hin in Hi. cbn in Hi. lia.
Qed.

(** X11: nothing precedes the source image.  As long as the running
    application has no source image, the three texts are empty, the
    body-shape flag is at its default, there is no result, and
    [changePose] has not been called. *)
Theorem X11_nothing_before_the_source_image (w : World) :
  reachable w ->
  originalImage (ui w) = None ->
  prompt (ui w) = "" /\ clothingPrompt (ui w) = ""
  /\ backgroundPrompt (ui w) = "" /\ preserveBodyShape (ui w) = true
  /\ generatedImage (ui w) = None /\ inflight w = [] /\ issued w = [].
Proof.
  induction 1 as [|w e w' Hr IH Hstep]; intros Ho.
  - repeat split; reflexivity.
  - apply (step_untouched w w' e Hstep Ho). apply IH.
    destruct (originalImage (ui w)) eqn:E; [|reflexivity].
    exfalso. apply (step_keeps_source w w' e Hstep); [rewrite E; discriminate | exact Ho].
Qed.

Lemma X11_witness :
  reachable failedLoadWorld
  /\ originalImage (ui failedLoadWorld) = None
  /\ clothingImage (ui failedLoadWorld) <> None
  /\ prompt (ui failedLoadWorld) = "" /\ clothingPrompt (ui failedLoadWorld) = ""
  /\ backgroundPrompt (ui failedLoadWorld) = ""
  /\ preserveBodyShape (ui failedLoadWorld) = true
  /\ generatedImage (ui failedLoadWorld) = None
  /\ inflight failedLoadWorld = [] /\ issued failedLoadWorld = [].
Proof.
  assert (Hr : reachable failedLoadWorld)
    by exact (run_reachable toFailedLoad start failedLoadWorld reachable_start eq_refl).
  split; [exact Hr|]. split; [reflexivity|]. split; [discriminate|].
  exact (X11_nothing_before_the_source_image failedLoadWorld Hr eq_refl).
Defined.

(** X12: while the sample image is being fetched the source uploader and
    the button are out of reach.  When the fetch fails, the message of the
    failed load is shown, loading ends and there is still no source image;
    an image file then chosen becomes the source image and clears the
    message. *)
Theorem X12_failed_load_recovers (w : World) :
  reachable w ->
  load w = Fetching ->
  (forall file, step w (SourceChosen file) = None)
  /\ step w GenerateClicked = None
  /\ exists w1,
       step w FetchFailed = Some w1
       /\ error (ui w1) = Some loadFailureMessage
       /\ isLoading (ui w1) = false
       /\ originalImage (ui w1) = None
       /\ forall f img, handleFileChange (Some f) = Some img ->
            exists w2,
              step w1 (SourceChosen (Some f)) = Some w2
              /\ originalImage (ui w2) = Some img
              /\ error (ui w2) = None
              /\ isLoading (ui w2) = false.
Proof.
  intros Hr Hl.
  destruct (reachable_invariant w Hr) as (_ & _ & _ & Hfetch).
  destruct (Hfetch Hl) as (Hload & Ho & _ & _).
  split; [intros file; cbn [step]; rewrite Hload, Ho; reflexivity|].
  split; [cbn [step]; unfold isGenerationDisabled; rewrite Hload; reflexivity|].
  eexists. split; [cbn [step]; rewrite Hl; reflexivity|].
  split; [reflexivity|]. split; [reflexivity|]. split; [exact Ho|].
  intros f img Hup. eexists.
  split; [cbn [step]; rewrite Hup; cbn; reflexivity|].
  repeat split; reflexivity.
Qed.

Lemma X12_witness :
  load start = Fetching
  /\ exists w1,
       step start FetchFailed = Some w1
       /\ error (ui w1) = Some loadFailureMessage
       /\ isLoading (ui w1) = false
       /\ originalImage (ui w1) = None
       /\ forall f img, handleFileChange (Some f) = Some img ->
            exists w2,
              step w1 (SourceChosen (Some f)) = Some w2
              /\ originalImage (ui w2) = Some img
              /\ error (ui w2) = None
              /\ isLoading (ui w2) = false.
Proof.
  split; [reflexivity|].
  exact (proj2 (proj2 (X12_failed_load_recovers start reachable_start eq_refl))).
Defined.

(** ** Trying again after a failure *)

(** Once a call has settled the button depends on the inputs alone. *)
Lemma settled_button (r : settled) (s : State) :
  isGenerationDisabled (resume r s)
  = (absent (originalImage s) || nothingToChange s)%bool.
Proof. destruct r; reflexivity. Qed.

(** X13: after a call has failed, the inputs are as they were, the button
    is enabled again whenever they still make a request, and a click then
    sends that very request anew, as the only pending call, with the error
    cleared and the loading flag up: nothing has to be entered again. *)
Theorem X13_retry_after_failure (w w1 : World) (i : nat) (e : Js.thrown)
    (s0 : State) (request : ChangePoseArgs) :
  reachable w ->
  step w (CallSettled i (Rejected e)) = Some w1 ->
  handleGeneratePose (ui w) = Awaiting s0 request ->
  sameInputs (ui w1) (ui w)
  /\ isGenerationDisabled (ui w1) = false
  /\ exists w2,
       step w1 GenerateClicked = Some w2
       /\ inflight w2 = [request]
       /\ issued w2 = (issued w ++ [request])%list
       /\ error (ui w2) = None
       /\ isLoading (ui w2) = true
       /\ generatedImage (ui w2) = None.
Proof.
  intros Hr Hstep Hreq.
  destruct (reachable_invariant w Hr) as (Hlen & _ & _ & _).
  cbn [step] in Hstep. apply whenb_some in Hstep as [Hi ->].
  apply Nat.ltb_lt in Hi.
  destruct (inflight w) as [|c [|c' l]] eqn:Ein; cbn in Hi, Hlen; try lia.
  assert (i = 0) by lia. subst i.
  destruct (handleGeneratePose_awaiting _ _ _ Hreq)
    as (original & data & Ho & Hn & Hd & Ht & _ & Hcall).
  assert (Hdis : isGenerationDisabled (resume (Rejected e) (ui w)) = false).
  { rewrite settled_button. rewrite Ho, Hn. reflexivity. }
  split; [repeat split; reflexivity|]. split; [exact Hdis|].
  cbn [step ui]. rewrite Hdis. cbn [negb whenb].
  unfold invokeGenerate. cbn [ui inflight issued load].
  rewrite (handleGeneratePose_accepts (resume (Rejected e) (ui w)) original data
             Ho Hn Hd Ht).
  eexists. split; [reflexivity|].
  cbn. rewrite Hcall. repeat split; reflexivity.
Qed.

Lemma X13_witness :
  exists w1 w2,
    step pending (CallSettled 0 (Rejected (Js.Error "timeout"))) = Some w1
    /\ isGenerationDisabled (ui w1) = false
    /\ step w1 GenerateClicked = Some w2
    /\ inflight w2 = inflight pending
    /\ error (ui w2) = None.
Proof.
  assert (Hr : reachable pending)
    by exact (run_reachable toPending start pending reachable_start eq_refl).
  destruct (X13_retry_after_failure pending failedWorld 0 (Js.Error "timeout")
              _ _ Hr eq_refl eq_refl)
    as (_ & Hdis & w2 & Hstep & Hin & _ & He & _).
  exists failedWorld, w2. repeat split; assumption.
Defined.

(** ** The text-only variant of [App.tsx] *)

Lemma simple_nothingToChange (s : State) :
  nothingToChange s
  = (Simple.nothingToChange (Simple.ofState s)
     && absent (backgroundImage s) && absent (clothingImage s))%bool.
Proof. reflexivity. Qed.

(** X14: whatever the text-only variant sends, the richer variant sends
    too: when the text-only handler reaches [changePose] on what it sees
    of a submission, the richer handler reaches it on the whole
    submission, with the same source payload, media type, texts and flag,
    and leaves the same cells behind. *)
Theorem X14_richer_variant_sends_as_much (s : State) (t : Simple.State)
    (request : Simple.ChangePoseArgs) :
  Simple.handleGeneratePose (Simple.ofState s) = Simple.Awaiting t request ->
  exists s1 call,
    handleGeneratePose s = Awaiting s1 call
    /\ Simple.ofState s1 = t
    /\ Simple.ofArgs call = request.
Proof.
  unfold Simple.handleGeneratePose, handleGeneratePose.
  rewrite simple_nothingToChange.
  cbn [Simple.originalImage Simple.ofState].
  destruct (originalImage s) as [original|]; [|discriminate].
  destruct (Simple.nothingToChange (Simple.ofState s)); [discriminate|].
  cbn [andb].
  destruct (Js.index (Js.split ","%char (dataUrl original)) 1) as [data|];
    [|discriminate].
  destruct (Js.truthy data); [|discriminate].
  intros H. injection H as <- <-.
  eexists. eexists. split; [reflexivity|]. split; reflexivity.
Qed.

Lemma X14_witness :
  exists s1 call,
    handleGeneratePose redDress = Awaiting s1 call
    /\ Simple.arg_clothingPrompt (Simple.ofArgs call) = "red dress"
    /\ arg_clothingData call = Js.Str "BBBB".
Proof.
  destruct (X14_richer_variant_sends_as_much redDress _ _ eq_refl)
    as (s1 & call & Hrun & _ & Hargs).
  exists s1, call. split; [exact Hrun|].
  split; [rewrite Hargs; reflexivity|].
  cbn in Hrun. injection Hrun as _ <-. reflexivity.
Defined.

(** X15: without reference images the two variants agree: the text-only
    handler does on what it sees of the submission exactly what the richer
    one does (same rejection, same failure, same request and same cells
    afterwards), the richer request carries [null] for both reference
    images, and the two buttons are disabled together. *)
Theorem X15_variants_agree_without_reference_images (s : State) :
  backgroundImage s = None ->
  clothingImage s = None ->
  Simple.handleGeneratePose (Simple.ofState s)
  = Simple.ofOutcome (handleGeneratePose s)
  /\ Simple.isGenerationDisabled (Simple.ofState s) = isGenerationDisabled s
  /\ forall s1 call, handleGeneratePose s = Awaiting s1 call ->
       arg_backgroundData call = Js.Null
       /\ arg_backgroundMimeType call = Js.Null
       /\ arg_clothingData call = Js.Null
       /\ arg_clothingMimeType call = Js.Null.
Proof.
  intros Hb Hc.
  assert (Hn : nothingToChange s = Simple.nothingToChange (Simple.ofState s)).
  { rewrite simple_nothingToChange, Hb, Hc. cbn [absent].
    rewrite !andb_true_r. reflexivity. }
  split; [|split].
  - unfold Simple.handleGeneratePose, handleGeneratePose. rewrite Hn.
    cbn [Simple.originalImage Simple.ofState].
    destruct (originalImage s) as [original|]; [|reflexivity].
    destruct (Simple.nothingToChange (Simple.ofState s)); [reflexivity|].
    destruct (Js.index (Js.split ","%char (dataUrl original)) 1) as [data|];
      [destruct (Js.truthy data)|]; reflexivity.
  - unfold Simple.isGenerationDisabled, isGenerationDisabled. rewrite Hn.
    reflexivity.
  - intros s1 call Hrun.
    destruct (handleGeneratePose_awaiting s s1 call Hrun)
      as (original & data & _ & _ & _ & _ & _ & ->).
    cbn. rewrite Hb, Hc. repeat split; reflexivity.
Qed.

Lemma X15_witness :
  Simple.handleGeneratePose (Simple.ofState superhero)
  = Simple.ofOutcome (handleGeneratePose superhero)
  /\ Simple.isGenerationDisabled (Simple.ofState superhero)
     = isGenerationDisabled superhero.
Proof.
  destruct (X15_variants_agree_without_reference_images superhero eq_refl eq_refl)
    as (H1 & H2 & _).
  split; [exact H1 | exact H2].
Defined.

(** ** Dropping and picking files *)

(** X16: of the files dropped on an uploader, or picked in its file
    dialog, only the first counts, and both ways treat it alike: when the
    first file is not an image nothing is uploaded even if images follow;
    a drop always ends the dragging highlight. *)
Theorem X16_only_the_first_file_counts (files : list File) (isDragging : bool) :
  fst (DropZone.onDrop files isDragging) = false
  /\ snd (DropZone.onDrop files isDragging) = handleFileChange (hd_error files)
  /\ DropZone.onChange (Some files) = snd (DropZone.onDrop files isDragging)
  /\ (forall f rest,
        files = f :: rest ->
        Js.startsWith (type f) "image/" = false ->
        snd (DropZone.onDrop files isDragging) = None)
  /\ (forall f rest,
        files = f :: rest ->
        Js.startsWith (type f) "image/" = true ->
        snd (DropZone.onDrop files isDragging)
        = Some {| dataUrl := readAsDataURL f; mimeType := type f |}).
Proof.
  split; [reflexivity|]. split; [destruct files; reflexivity|].
  split; [destruct files; reflexivity|].
  split; intros f rest -> Hty; cbn; unfold handleFileChange; rewrite Hty;
    reflexivity.
Qed.

Example text_file_first :
  snd (DropZone.onDrop twoFiles true) = None
  /\ snd (DropZone.onDrop (rev twoFiles) true) <> None.
Proof. split; [reflexivity | discriminate]. Qed.

(** ** The first moments *)

(** X17: while the sample image is being fetched, the result area shows
    the spinner of a generation although no call of [changePose] is
    pending, and a loader stands in for the source uploader. *)
Theorem X17_spinner_during_the_sample_fetch (w : World) :
  reachable w ->
  load w = Fetching ->
  showsSpinner (ui w) = true
  /\ sourceUploaderHidden (ui w) = true
  /\ inflight w = [] /\ issued w = [].
Proof.
  intros Hr Hl.
  destruct (reachable_invariant w Hr) as (_ & _ & _ & Hfetch).
  destruct (Hfetch Hl) as (Hload & Ho & Hin & Hg).
  unfold showsSpinner, sourceUploaderHidden. rewrite Hload, Ho, Hg.
  repeat split; try reflexivity; try exact Hin.
  clear Hfetch Hload Hg Hin Hl. induction Hr as [|w e w' Hr IH Hstep].
  - reflexivity.
  - destruct (step_issued w w' e Hstep) as [-> | (s1 & call & -> & _)].
    + apply IH. destruct (originalImage (ui w)) eqn:E; [|reflexivity].
      exfalso. apply (step_keeps_source w w' e Hstep); [rewrite E; discriminate | exact Ho].
    + cbn [step] in Hstep. apply whenb_some in Hstep as [Hen ->].
      apply negb_true_iff, enabled_button in Hen as (_ & [img Hi] & _).
      destruct (invokeGenerate_sameInputs w) as (Hsame & _). congruence.
Qed.

Lemma X17_witness :
  load start = Fetching
  /\ showsSpinner (ui start) = true
  /\ sourceUploaderHidden (ui start) = true
  /\ inflight start = [] /\ issued start = [].
Proof.
  split; [reflexivity|].
  exact (X17_spinner_during_the_sample_fetch start reachable_start eq_refl).
Defined.
